(** * FUTFW trader automation: analysis, publication and the hourly driver

    A shallow embedding of [futfw_automation.py] and the properties of its
    response extraction, record validation, webhook publication and driver
    loop.

    Conventions of the embedding.
    - A Python [str] is a [string], one [ascii] per character; indices are
      Python integers, hence [Z], and [-1] is the "not found" answer of
      [str.find] and [str.rfind].
    - Printing, the completion service, the HTTP endpoint, the process
      environment and the JSON decoder of the standard library are not
      code of the repository: a [World] supplies their answers, and every
      effect of a run is recorded, in order, in a trace of [Event]s.
    - Python exceptions are values of [exn]; a computation is a function
      from the trace so far to a result, or a raised exception, and the
      trace after it. *)

From Stdlib Require Import String Ascii ZArith List Bool Lia DecimalString SpecFloat.
Import ListNotations.
Open Scope string_scope.
Open Scope Z_scope.
Set Warnings "-register-all".

(** ** Python strings *)

Module PyStr.

Definition len (s : string) : Z := Z.of_nat (String.length s).

Fixpoint drop (n : nat) (s : string) : string :=
  match n, s with
  | O, _ => s
  | S _, EmptyString => EmptyString
  | S n', String _ s' => drop n' s'
  end.

Fixpoint take (n : nat) (s : string) : string :=
  match n, s with
  | O, _ => EmptyString
  | S _, EmptyString => EmptyString
  | S n', String a s' => String a (take n' s')
  end.

(** Offset of the leftmost occurrence of [sub] in [s]. *)
Fixpoint find_first (sub s : string) : option nat :=
  if prefix sub s then Some O
  else match s with
       | EmptyString => None
       | String _ s' => option_map S (find_first sub s')
       end.

(** Offset of the rightmost occurrence of [sub] in [s]. *)
Fixpoint find_last (sub s : string) : option nat :=
  match s with
  | EmptyString => if prefix sub s then Some O else None
  | String _ s' =>
      match find_last sub s' with
      | Some n => Some (S n)
      | None => if prefix sub s then Some O else None
      end
  end.

(** How Python places a slice or search bound [i] in a string of
    length [n]: a negative bound counts from the end, and the result is
    clipped to [0 .. n]. *)
Definition clip (n i : Z) : Z :=
  if i <? 0 then Z.max 0 (i + n) else Z.min i n.

(** [sub in s] *)
Definition contains (sub s : string) : bool :=
  match find_first sub s with Some _ => true | None => false end.

(** [s.find(sub, start)] *)
Definition find (s sub : string) (start : Z) : Z :=
  if len s <? start then -1
  else
    let b := clip (len s) start in
    match find_first sub (drop (Z.to_nat b) s) with
    | Some n => b + Z.of_nat n
    | None => -1
    end.

(** [s.rfind(sub)] *)
Definition rfind (s sub : string) : Z :=
  match find_last sub s with
  | Some n => Z.of_nat n
  | None => -1
  end.

(** [s[lo:hi]] *)
Definition slice (s : string) (lo hi : Z) : string :=
  let l := clip (len s) lo in
  let h := clip (len s) hi in
  take (Z.to_nat (h - l)) (drop (Z.to_nat l) s).

(** The characters [str.isspace] accepts, among the first 256. *)
Definition is_space (c : ascii) : bool :=
  let n := nat_of_ascii c in
  ((9 <=? n) && (n <=? 13) || (28 <=? n) && (n <=? 32)
   || (n =? 133) || (n =? 160))%nat.

Fixpoint lstrip (s : string) : string :=
  match s with
  | EmptyString => EmptyString
  | String a s' => if is_space a then lstrip s' else s
  end.

Fixpoint rstrip (s : string) : string :=
  match s with
  | EmptyString => EmptyString
  | String a s' =>
      match rstrip s' with
      | EmptyString => if is_space a then EmptyString else String a EmptyString
      | r => String a r
      end
  end.

(** [s.strip()] *)
Definition strip (s : string) : string := lstrip (rstrip s).

(** [c * n] *)
Fixpoint repeat (c : string) (n : nat) : string :=
  match n with
  | O => EmptyString
  | S n' => c ++ repeat c n'
  end.

(** [str(i)] for an integer [i]. *)
Definition of_int (i : Z) : string := NilZero.string_of_int (Z.to_int i).

End PyStr.

(** ** Values, exceptions and the world outside the script *)

(** What [json.loads] can return. *)
Inductive json : Type :=
| JNull
| JBool (b : bool)
| JInt (i : Z)
| JFloat (f : spec_float)
| JString (s : string)
| JList (items : list json)
| JDict (members : list (string * json)).

(** The subclasses of [Exception] the script tells apart. *)
Inductive exception : Type :=
| JSONDecodeError (msg : string)     (* json.JSONDecodeError *)
| Timeout (msg : string)             (* requests.exceptions.Timeout *)
| OtherException (msg : string).     (* any other Exception *)

(** [str(e)] *)
Definition str_of_exception (e : exception) : string :=
  match e with
  | JSONDecodeError msg => msg
  | Timeout msg => msg
  | OtherException msg => msg
  end.

(** What can be raised: an [Exception], or the [SystemExit] of
    [sys.exit], which [except Exception] does not catch. *)
Inductive exn : Type :=
| Exception (e : exception)
| SystemExit (code : Z).

(** The observable effects of a run. A printed line keeps the value put
    between its second pair of brackets and its message; its timestamp is
    read from the clock and is left out. *)
Inductive Event : Type :=
| LogLine (symbol : json) (message : string)
    (* log_message: print(f"[{timestamp}] [{symbol}] {message}") *)
| ChatCompletion (symbol : string)
    (* client.chat.completions.create(...), the prompt template filled
       with the symbol *)
| HttpPost (url : string) (headers : list (string * string)) (body : json)
           (timeout : Z).
    (* requests.post(url, headers=..., json=..., timeout=...) *)

Definition Trace : Type := list Event.

(** The answers of everything the script calls but does not define. The
    service and the endpoint may answer differently at each call, so
    they see the trace so far. *)
Record World : Type := {
  (* os.environ.get(name) *)
  environ_get : string -> option string;
  (* lines 76-92 up to .content: the text of the first choice, or the
     exception raised on the way to it *)
  chat_completions_create : Trace -> string -> string + exception;
  (* json.loads *)
  json_loads : string -> json + exception;
  (* response.status_code of requests.post, or the exception it raised *)
  requests_post : Trace -> json -> Z + exception
}.

(** ** Computations: trace passing with exceptions *)

Definition M (A : Type) : Type := Trace -> (A + exn) * Trace.

Definition ret {A} (a : A) : M A := fun t => (inl a, t).

Definition bind {A B} (c : M A) (k : A -> M B) : M B :=
  fun t =>
    match c t with
    | (inl a, t') => k a t'
    | (inr e, t') => (inr e, t')
    end.

Definition raise {A} (e : exn) : M A := fun t => (inr e, t).

Definition emit (e : Event) : M unit := fun t => (inl tt, (t ++ [e])%list).

(** The trace so far. *)
Definition history : M Trace := fun t => (inl t, t).

(** [try: body  except Exception as e: handler e] *)
Definition try_except {A} (body : M A) (handler : exception -> M A) : M A :=
  fun t =>
    match body t with
    | (inr (Exception e), t') => handler e t'
    | r => r
    end.

(** An answer of the world, raised when it is an exception. *)
Definition answer {A} (r : A + exception) : M A :=
  match r with
  | inl a => ret a
  | inr e => raise (Exception e)
  end.

Declare Scope py_scope.
Delimit Scope py_scope with py.
Notation "x <- c ;; k" := (bind c (fun x => k))
  (at level 61, c at next level, right associativity) : py_scope.
Notation "c ;; k" := (bind c (fun _ => k))
  (at level 61, right associativity) : py_scope.
Open Scope py_scope.

(** ** Python operations on decoded values *)

(** [field in v]: a key of a dict, an element of a list, a substring of a
    string; a [TypeError] on anything else. *)
Definition py_in (field : string) (v : json) : bool + exception :=
  match v with
  | JDict members =>
      inl (existsb (fun kv => String.eqb field (fst kv)) members)
  | JList items =>
      inl (existsb (fun x => match x with
                             | JString s => String.eqb field s
                             | _ => false
                             end) items)
  | JString s => inl (PyStr.contains field s)
  | JNull => inr (OtherException "argument of type 'NoneType' is not iterable")
  | JBool _ => inr (OtherException "argument of type 'bool' is not iterable")
  | JInt _ => inr (OtherException "argument of type 'int' is not iterable")
  | JFloat _ => inr (OtherException "argument of type 'float' is not iterable")
  end.

(** [v.get(key, default)]: defined on a dict, an [AttributeError] on
    anything else. *)
Definition py_get (v : json) (key : string) (default : json)
  : json + exception :=
  match v with
  | JDict members =>
      match List.find (fun kv => String.eqb key (fst kv)) members with
      | Some kv => inl (snd kv)
      | None => inl default
      end
  | _ => inr (OtherException "object has no attribute 'get'")
  end.

(** The truth value of [if v:]. *)
Definition truthy (v : json) : bool :=
  match v with
  | JNull => false
  | JBool b => b
  | JInt i => negb (i =? 0)
  | JFloat (S754_zero _) => false
  | JFloat _ => true
  | JString s => negb (String.eqb s "")
  | JList items => match items with [] => false | _ => true end
  | JDict members => match members with [] => false | _ => true end
  end.

(** ** The script *)

(** Configuration (lines 15-17). The characters of the webhook key are
    elided here; nothing below depends on them. *)
Definition SYMBOLS : list string := ["MGC1"; "MYM1"; "MNQ1"; "XAUTUSDT.P"].
Definition WEBHOOK_URL : string :=
  "https://urrkdejorxotrheccirl.supabase.co/functions/v1/trading-analysis".
Definition WEBHOOK_API_KEY : string := "ftw_sk_live_...".

Definition SYSTEM : json := JString "SYSTEM".

(** [log_message(message, symbol="SYSTEM")] (lines 62-65) *)
Definition log_message (message : string) (symbol : json) : M unit :=
  emit (LogLine symbol message).

(** The call of lines 76-92: the request is sent, and the service
    answers with the content of its first choice or with an exception. *)
Definition call_completion (w : World) (symbol : string) : M string :=
  t <- history ;;
  emit (ChatCompletion symbol) ;;
  answer (chat_completions_create w t symbol).

(** The call of lines 152-157. *)
Definition call_post (w : World) (url : string)
    (headers : list (string * string)) (body : json) (timeout : Z) : M Z :=
  t <- history ;;
  emit (HttpPost url headers body timeout) ;;
  answer (requests_post w t body).

(** Lines 96-103: the text inside a markdown fence, when there is one. *)
Definition strip_fences (analysis_text : string) : string :=
  if PyStr.contains "```json" analysis_text then
    let start := PyStr.find analysis_text "```json" 0 + 7 in
    let end_ := PyStr.find analysis_text "```" start in
    PyStr.strip (PyStr.slice analysis_text start end_)
  else if PyStr.contains "```" analysis_text then
    let start := PyStr.find analysis_text "```" 0 + 3 in
    let end_ := PyStr.find analysis_text "```" start in
    PyStr.strip (PyStr.slice analysis_text start end_)
  else analysis_text.

(** Lines 106-110: [json_str] when both boundaries were found, [None]
    when the [else] branch of line 125 is taken. *)
Definition json_boundaries (analysis_text : string) : option string :=
  let start_idx := PyStr.find analysis_text "{" 0 in
  let end_idx := PyStr.rfind analysis_text "}" + 1 in
  if negb (start_idx =? -1) && negb (end_idx =? 0)
  then Some (PyStr.slice analysis_text start_idx end_idx)
  else None.

(** Lines 114-116 *)
Definition required_fields : list string :=
  ["symbol"; "trend_1h"; "trend_15m"; "current_price";
   "entry_price"; "stop_loss"; "take_profit";
   "support_levels"; "resistance_levels"].

(** Lines 118-124: the loop over the fields still to check, then the
    success report and the return of the record. *)
Fixpoint check_fields (fields : list string) (analysis_json : json)
    (symbol : string) : M (option json) :=
  match fields with
  | [] =>
      log_message "✓ Analysis completed successfully" (JString symbol) ;;
      ret (Some analysis_json)
  | field :: rest =>
      present <- answer (py_in field analysis_json) ;;
      if negb present then
        log_message ("Missing required field: " ++ field) (JString symbol) ;;
        ret None
      else check_fields rest analysis_json symbol
  end.

(** [run_futfw_analysis(symbol)] (lines 68-134); [None] is Python's
    [None]. *)
Definition run_futfw_analysis (w : World) (symbol : string)
  : M (option json) :=
  try_except
    (log_message "Starting analysis..." (JString symbol) ;;
     content <- call_completion w symbol ;;
     let analysis_text := PyStr.strip content in
     log_message "Received response from Perplexity AI" (JString symbol) ;;
     let analysis_text := strip_fences analysis_text in
     match json_boundaries analysis_text with
     | Some json_str =>
         analysis_json <- answer (json_loads w json_str) ;;
         check_fields required_fields analysis_json symbol
     | None =>
         log_message "✗ No valid JSON found in response" (JString symbol) ;;
         ret None
     end)
    (fun e =>
       match e with
       | JSONDecodeError msg =>
           log_message ("✗ JSON parsing error: " ++ msg) (JString symbol) ;;
           ret None
       | _ =>
           log_message ("✗ Analysis error: " ++ str_of_exception e)
                       (JString symbol) ;;
           ret None
       end).

(** [send_to_webhook(analysis)] (lines 137-171) *)
Definition send_to_webhook (w : World) (analysis : json) : M bool :=
  symbol <- answer (py_get analysis "symbol" (JString "UNKNOWN")) ;;
  try_except
    (let headers := [("Content-Type", "application/json");
                     ("x-api-key", WEBHOOK_API_KEY)] in
     log_message "Sending to dashboard..." symbol ;;
     status_code <- call_post w WEBHOOK_URL headers analysis 30 ;;
     if status_code =? 200 then
       log_message "✓ Successfully sent to dashboard" symbol ;;
       ret true
     else
       log_message ("✗ Webhook error: HTTP " ++ PyStr.of_int status_code)
                   symbol ;;
       ret false)
    (fun e =>
       match e with
       | Timeout _ =>
           log_message "✗ Webhook timeout after 30 seconds" symbol ;;
           ret false
       | _ =>
           log_message ("✗ Webhook error: " ++ str_of_exception e) symbol ;;
           ret false
       end).

(** The counters of [main]: [(success_count, failure_count)]. *)
Definition Counts : Type := (Z * Z)%type.

(** One iteration of the loop of [main] (lines 189-204). *)
Definition process_symbol (w : World) (symbol : string) (counts : Counts)
  : M Counts :=
  let '(success_count, failure_count) := counts in
  log_message ("Processing " ++ symbol ++ "...") SYSTEM ;;
  analysis <- run_futfw_analysis w symbol ;;
  counts' <-
    (let skipped :=
       log_message ("⚠️  Skipping " ++ symbol ++ " - analysis failed")
                   (JString symbol) ;;
       ret (success_count, failure_count + 1) in
     match analysis with
     | Some record =>
         if truthy record then
           sent <- send_to_webhook w record ;;
           if sent then ret (success_count + 1, failure_count)
           else ret (success_count, failure_count + 1)
         else skipped
     | None => skipped
     end) ;;
  log_message (PyStr.repeat "-" 60) SYSTEM ;;
  ret counts'.

(** [for symbol in symbols: ...] (line 188) *)
Fixpoint for_symbols (w : World) (symbols : list string) (counts : Counts)
  : M Counts :=
  match symbols with
  | [] => ret counts
  | symbol :: rest =>
      counts' <- process_symbol w symbol counts ;;
      for_symbols w rest counts'
  end.

(** [sys.exit(code)] *)
Definition sys_exit {A} (code : Z) : M A := raise (SystemExit code).

(** [not os.environ.get(name)]: the variable is unset or empty. *)
Definition env_missing (w : World) (name : string) : bool :=
  match environ_get w name with
  | None => true
  | Some v => String.eqb v ""
  end.

(** Lines 185-212 of [main], after the credential check, over a list of
    symbols; returns the final counters. *)
Definition run_symbols (w : World) (symbols : list string) : M Counts :=
  counts <- for_symbols w symbols (0, 0) ;;
  let '(success_count, failure_count) := counts in
  let n := PyStr.of_int (Z.of_nat (List.length symbols)) in
  log_message (PyStr.repeat "=" 60) SYSTEM ;;
  log_message ("✅ Analysis Complete! Success: "
               ++ PyStr.of_int success_count ++ "/" ++ n
               ++ " | Failed: " ++ PyStr.of_int failure_count ++ "/" ++ n)
              SYSTEM ;;
  log_message (PyStr.repeat "=" 60) SYSTEM ;;
  if failure_count =? Z.of_nat (List.length symbols)
  then sys_exit 1
  else ret counts.

(** [main()] (lines 174-212). The client of lines 20-23 is built by the
    library before [main] is entered and is not part of the model. *)
Definition main (w : World) : M unit :=
  log_message (PyStr.repeat "=" 60) SYSTEM ;;
  log_message "🚀 FUTFW HOURLY ANALYSIS STARTED" SYSTEM ;;
  log_message (PyStr.repeat "=" 60) SYSTEM ;;
  if env_missing w "PERPLEXITY_API_KEY" then
    log_message
      "✗ ERROR: PERPLEXITY_API_KEY environment variable not set" SYSTEM ;;
    sys_exit 1
  else
    run_symbols w SYMBOLS ;;
    ret tt.

(** The status with which the interpreter leaves a computation started
    on the empty trace: 0 when it returns, the code of [sys.exit], and 1
    after the traceback of an uncaught exception. *)
Definition exit_status {A} (r : (A + exn) * Trace) : Z :=
  match fst r with
  | inl _ => 0
  | inr (SystemExit code) => code
  | inr (Exception _) => 1
  end.

(** The run was cut short by an uncaught exception. *)
Definition aborted {A} (r : (A + exn) * Trace) : bool :=
  match fst r with
  | inr (Exception _) => true
  | _ => false
  end.

(** ** A reference decoder, to run the script on concrete answers

    The statements below hold for every decoder a [World] may carry.
    [Decoder.loads] is a decoder to evaluate them with: it reads JSON
    objects, arrays, strings with the single-character escapes, integer
    numerals and the three literals, and answers [JSONDecodeError] on
    anything else (among which numerals with a fraction or an exponent,
    which [json.loads] would round to a float). *)

Module Decoder.

Definition dquote : ascii := "034"%char.
Definition backslash : ascii := "092"%char.

Definition is_ws (c : ascii) : bool :=
  (Ascii.eqb c " " || Ascii.eqb c "009" || Ascii.eqb c "010"
   || Ascii.eqb c "013")%char.

Fixpoint skip_ws (s : string) : string :=
  match s with
  | String c s' => if is_ws c then skip_ws s' else s
  | EmptyString => EmptyString
  end.

Definition unescape (c : ascii) : option ascii :=
  (if Ascii.eqb c dquote then Some dquote
   else if Ascii.eqb c backslash then Some backslash
   else if Ascii.eqb c "/" then Some "/"
   else if Ascii.eqb c "b" then Some "008"
   else if Ascii.eqb c "f" then Some "012"
   else if Ascii.eqb c "n" then Some "010"
   else if Ascii.eqb c "r" then Some "013"
   else if Ascii.eqb c "t" then Some "009"
   else None)%char.

(** The characters of a string after its opening quote, and what
    follows its closing quote. *)
Fixpoint string_body (s : string) : option (string * string) :=
  match s with
  | EmptyString => None
  | String c s' =>
      if Ascii.eqb c dquote then Some (EmptyString, s')
      else if Ascii.eqb c backslash then
        match s' with
        | String e s'' =>
            match unescape e, string_body s'' with
            | Some c', Some (body, rest) => Some (String c' body, rest)
            | _, _ => None
            end
        | EmptyString => None
        end
      else if (nat_of_ascii c <? 32)%nat then None
      else
        match string_body s' with
        | Some (body, rest) => Some (String c body, rest)
        | None => None
        end
  end.

Definition digit (c : ascii) : option Z :=
  let n := nat_of_ascii c in
  if ((48 <=? n) && (n <=? 57))%nat then Some (Z.of_nat n - 48) else None.

(** The value of the digits at the head of [s], after [acc], and what
    follows them. *)
Fixpoint digits (acc : Z) (s : string) : Z * string :=
  match s with
  | String c s' =>
      match digit c with
      | Some d => digits (10 * acc + d) s'
      | None => (acc, s)
      end
  | EmptyString => (acc, s)
  end.

Definition starts_fraction (s : string) : bool :=
  match s with
  | String c _ => (Ascii.eqb c "." || Ascii.eqb c "e" || Ascii.eqb c "E")%char
  | EmptyString => false
  end.

(** An unsigned integer numeral: [0], or digits not starting with 0. *)
Definition natural (s : string) : option (Z * string) :=
  match s with
  | String c s' =>
      match digit c with
      | Some 0 => if starts_fraction s' then None else Some (0, s')
      | Some d =>
          let '(n, rest) := digits d s' in
          if starts_fraction rest then None else Some (n, rest)
      | None => None
      end
  | EmptyString => None
  end.

Definition integer (s : string) : option (json * string) :=
  match s with
  | String "-" s' =>
      match natural s' with
      | Some (n, rest) => Some (JInt (- n), rest)
      | None => None
      end
  | _ =>
      match natural s with
      | Some (n, rest) => Some (JInt n, rest)
      | None => None
      end
  end.

(** [d[key] = v] placed before the members [rest] read after it: a
    later member with the same key gives the value, the first gives
    the place. *)
Definition add_member (key : string) (v : json)
    (rest : list (string * json)) : list (string * json) :=
  match List.find (fun kv => String.eqb key (fst kv)) rest with
  | Some kv =>
      (key, snd kv)
        :: List.filter (fun kv => negb (String.eqb key (fst kv))) rest
  | None => (key, v) :: rest
  end.

Fixpoint value (fuel : nat) (s : string) {struct fuel}
  : option (json * string) :=
  match fuel with
  | O => None
  | S fuel' =>
      match s with
      | String "{" s' =>
          match skip_ws s' with
          | String "}" rest => Some (JDict [], rest)
          | s'' =>
              match members fuel' s'' with
              | Some (kvs, rest) => Some (JDict kvs, rest)
              | None => None
              end
          end
      | String "[" s' =>
          match skip_ws s' with
          | String "]" rest => Some (JList [], rest)
          | s'' =>
              match elements fuel' s'' with
              | Some (vs, rest) => Some (JList vs, rest)
              | None => None
              end
          end
      | String c s' =>
          if Ascii.eqb c dquote then
            match string_body s' with
            | Some (body, rest) => Some (JString body, rest)
            | None => None
            end
          else if prefix "true" s then Some (JBool true, PyStr.drop 4 s)
          else if prefix "false" s then Some (JBool false, PyStr.drop 5 s)
          else if prefix "null" s then Some (JNull, PyStr.drop 4 s)
          else integer s
      | EmptyString => None
      end
  end
with members (fuel : nat) (s : string) {struct fuel}
  : option (list (string * json) * string) :=
  match fuel with
  | O => None
  | S fuel' =>
      match s with
      | String c s' =>
          if Ascii.eqb c dquote then
            match string_body s' with
            | Some (key, s1) =>
                match skip_ws s1 with
                | String ":" s2 =>
                    match value fuel' (skip_ws s2) with
                    | Some (v, s3) =>
                        match skip_ws s3 with
                        | String "," s4 =>
                            match members fuel' (skip_ws s4) with
                            | Some (kvs, rest) =>
                                Some (add_member key v kvs, rest)
                            | None => None
                            end
                        | String "}" rest => Some ([(key, v)], rest)
                        | _ => None
                        end
                    | None => None
                    end
                | _ => None
                end
            | None => None
            end
          else None
      | EmptyString => None
      end
  end
with elements (fuel : nat) (s : string) {struct fuel}
  : option (list json * string) :=
  match fuel with
  | O => None
  | S fuel' =>
      match value fuel' s with
      | Some (v, s1) =>
          match skip_ws s1 with
          | String "," s2 =>
              match elements fuel' (skip_ws s2) with
              | Some (vs, rest) => Some (v :: vs, rest)
              | None => None
              end
          | String "]" rest => Some ([v], rest)
          | _ => None
          end
      | None => None
      end
  end.

Definition loads (s : string) : json + exception :=
  match value (S (String.length s)) (skip_ws s) with
  | Some (v, rest) =>
      match skip_ws rest with
      | EmptyString => inl v
      | _ => inr (JSONDecodeError "Extra data")
      end
  | None => inr (JSONDecodeError "Expecting value")
  end.

(** Helpers to write JSON texts. *)
Definition q (s : string) : string :=
  String dquote s ++ String dquote EmptyString.
Definition member (key value : string) : string := q key ++ ":" ++ value.

End Decoder.

(** Worlds to run the script in: the credential is [key], the service
    answers [reply symbol], the endpoint answers [status], and the
    decoder is the reference one. *)
Module Demo.

Import Decoder.

Definition world (key : option string)
    (reply : string -> string + exception) (status : Z + exception)
  : World :=
  {| environ_get :=
       fun name => if String.eqb name "PERPLEXITY_API_KEY" then key else None;
     chat_completions_create := fun _ symbol => reply symbol;
     json_loads := loads;
     requests_post := fun _ _ => status |}.

(** The nine required members, the first naming [symbol]. *)
Definition nine_members (symbol : string) : string :=
  member "symbol" (q symbol) ++ ","
  ++ member "trend_1h" (q "bullish") ++ ","
  ++ member "trend_15m" (q "neutral") ++ ","
  ++ member "current_price" "10" ++ ","
  ++ member "entry_price" "9" ++ ","
  ++ member "stop_loss" "8" ++ ","
  ++ member "take_profit" "12" ++ ","
  ++ member "support_levels" "[8,7]" ++ ","
  ++ member "resistance_levels" "[11,12]".

Definition record_text (symbol : string) : string :=
  "{" ++ nine_members symbol ++ "}".

Definition record (symbol : string) : json :=
  JDict [("symbol", JString symbol); ("trend_1h", JString "bullish");
         ("trend_15m", JString "neutral"); ("current_price", JInt 10);
         ("entry_price", JInt 9); ("stop_loss", JInt 8);
         ("take_profit", JInt 12);
         ("support_levels", JList [JInt 8; JInt 7]);
         ("resistance_levels", JList [JInt 11; JInt 12])].

Definition other_symbol : World :=
  Demo.world (Some "key") (fun _ => inl (Demo.record_text "OTHER")) (inl 200).

Definition nl : string := String "010" "".
(** A fenced answer between prose, as in the description's example. *)
Definition fenced_text : string :=
  "prefix text ```json" ++ nl ++ Demo.record_text "X" ++ nl ++ "``` suffix".
(** A fence that is never closed. *)
Definition unclosed_text : string := "```json" ++ Demo.record_text "X".

(** The first symbol is analysed and its publication times out, the
    service fails on the second, answers prose on the third and a
    record without its trends and prices on the last. *)
Definition failing : World :=
  Demo.world (Some "key")
    (fun symbol =>
       if String.eqb symbol "MGC1" then inl (Demo.record_text "MGC1")
       else if String.eqb symbol "MYM1"
            then inr (OtherException "Connection error.")
       else if String.eqb symbol "MNQ1" then inl "I cannot help with that."
       else inl ("{" ++ member "symbol" (q symbol) ++ "}"))
    (inr (Timeout "Read timed out."))%string.

(** The service fails on the first symbol only, and the endpoint
    accepts every record. *)
Definition one_failure : World :=
  Demo.world (Some "key")
    (fun symbol =>
       if String.eqb symbol "MGC1"
       then inr (OtherException "Connection error.")
       else inl (Demo.record_text symbol))
    (inl 200).

(** A record without its [take_profit] member. *)
Definition without_take_profit : string :=
  "{" ++ member "symbol" (q "X") ++ ","
  ++ member "trend_1h" (q "bullish") ++ ","
  ++ member "trend_15m" (q "neutral") ++ ","
  ++ member "current_price" "10" ++ ","
  ++ member "entry_price" "9" ++ ","
  ++ member "stop_loss" "8" ++ ","
  ++ member "support_levels" "[8,7]" ++ ","
  ++ member "resistance_levels" "[11,12]" ++ "}".

(** A world whose decoder is not the one of Python: it answers a list
    of the nine field names where a dict is due. *)
Definition list_decoder : World :=
  {| environ_get := fun _ => Some "key";
     chat_completions_create := fun _ _ => inl "{}";
     json_loads := fun _ => inl (JList (List.map JString required_fields));
     requests_post := fun _ _ => inl 200 |}.

End Demo.

(** ** The extraction procedure as it is described

    Occurrences are stated by splitting the text, without indices into
    it: [sub] occurs at offset [n] of [s] when [s] is [n] characters,
    then [sub], then the rest. *)

Module Described.

Definition occurs_at (sub s : string) (n : nat) : Prop :=
  exists pre post, s = pre ++ sub ++ post /\ String.length pre = n.

Definition occurs (sub s : string) : Prop := exists n, occurs_at sub s n.

Definition first_at (sub s : string) (n : nat) : Prop :=
  occurs_at sub s n /\ forall m, (m < n)%nat -> ~ occurs_at sub s m.

Definition last_at (sub s : string) (n : nat) : Prop :=
  occurs_at sub s n /\ forall m, (n < m)%nat -> ~ occurs_at sub s m.

(** [content] lies between the first fence of [text] opened with [tag]
    and the next closing fence. *)
Inductive fenced (tag text content : string) : Prop :=
| Fenced (pre rest post : string) :
    text = pre ++ tag ++ rest ->
    first_at tag text (String.length pre) ->
    rest = content ++ "```" ++ post ->
    first_at "```" rest (String.length content) ->
    fenced tag text content.

(** Steps 1 to 3: the text the boundaries are looked for in. *)
Inductive selected (text : string) : string -> Prop :=
| selected_json content :
    fenced "```json" text content -> selected text content
| selected_fence content :
    ~ occurs "```json" text ->
    fenced "```" text content -> selected text content
| selected_verbatim :
    ~ occurs "```" text -> selected text text.

(** Step 4: the candidate payload, or [None] when extraction fails. *)
Inductive candidate (text : string) : option string -> Prop :=
| candidate_span i j :
    first_at "{" text i -> last_at "}" text j ->
    candidate text (Some (substring i (j + 1 - i) text))
| candidate_none :
    ~ occurs "{" text \/ ~ occurs "}" text -> candidate text None.

(** An opening fence with no closing fence after it: [text] from
    offset [start] on is what follows the first [tag], and holds no
    fence. *)
Inductive unclosed (tag text : string) (start : nat) : Prop :=
| Unclosed (pre rest : string) :
    text = pre ++ tag ++ rest ->
    first_at tag text (String.length pre) ->
    start = (String.length pre + String.length tag)%nat ->
    ~ occurs "```" rest ->
    unclosed tag text start.

End Described.

(** ** Vocabulary of the statements *)

(** The symbols the completion service was asked about, in order. *)
Definition completions (t : list Event) : list string :=
  flat_map (fun e => match e with ChatCompletion s => [s] | _ => [] end) t.

(** The bodies posted to the webhook, in order. *)
Definition posts (t : list Event) : list json :=
  flat_map (fun e => match e with HttpPost _ _ body _ => [body] | _ => [] end) t.

(** What is assumed of [json.loads]: a text that is empty or begins with
    an opening brace decodes, when it decodes, to a dict. The texts the
    script hands to the decoder are of this kind
    ([json_boundaries_shape]). *)
Definition decodes_objects (w : World) : Prop :=
  forall json_str v,
    json_loads w json_str = inl v ->
    json_str = "" \/ (exists rest, json_str = String "{" rest) ->
    exists members, v = JDict members.

(** [record] is a dict with every one of [keys] among its keys. *)
Definition has_keys (keys : list string) (record : json) : Prop :=
  exists members,
    record = JDict members /\
    forall key, In key keys -> In key (map fst members).

(** The analysis of [symbol] returns [None], or a complete record whose
    [symbol] member is the requested symbol. *)
Definition round_trips (w : World) (symbol : string) (t : Trace) : Prop :=
  fst (run_futfw_analysis w symbol t) = inl None \/
  exists record,
    fst (run_futfw_analysis w symbol t) = inl (Some record) /\
    py_get record "symbol" (JString "UNKNOWN") = inl (JString symbol) /\
    has_keys required_fields record.

(** The three lines [main] starts with (lines 176-178). *)
Definition banner : list Event :=
  [LogLine SYSTEM (PyStr.repeat "=" 60);
   LogLine SYSTEM "🚀 FUTFW HOURLY ANALYSIS STARTED";
   LogLine SYSTEM (PyStr.repeat "=" 60)].

(** The three lines [main] ends with (lines 206-208). *)
Definition summary (total : nat) (counts : Counts) : list Event :=
  let n := PyStr.of_int (Z.of_nat total) in
  [LogLine SYSTEM (PyStr.repeat "=" 60);
   LogLine SYSTEM ("✅ Analysis Complete! Success: "
                 ++ PyStr.of_int (fst counts) ++ "/" ++ n
                 ++ " | Failed: " ++ PyStr.of_int (snd counts) ++ "/" ++ n);
   LogLine SYSTEM (PyStr.repeat "=" 60)].

(** The line of a successful publication (line 160), and how many of
    them a trace holds. *)
Definition is_published (e : Event) : bool :=
  match e with
  | LogLine _ message => String.eqb message "✓ Successfully sent to dashboard"
  | _ => false
  end.

Definition published (t : list Event) : Z :=
  Z.of_nat (List.length (filter is_published t)).

(** ** Auxiliary definitions of the proofs

    Closed forms of what the computations of the script return and add
    to the trace; each is proved equal to the computation it describes
    before it is used. *)

(** Only characters that [strip] removes. *)
Fixpoint all_space (s : string) : bool :=
  match s with
  | EmptyString => true
  | String a s' => PyStr.is_space a && all_space s'
  end.

(** [json_boundaries], on offsets in [nat]. *)
Definition span (s : string) : option string :=
  match PyStr.find_first "{" s, PyStr.find_last "}" s with
  | Some i, Some j => Some (PyStr.take (j + 1 - i) (PyStr.drop i s))
  | _, _ => None
  end.

(** The loop of lines 118-121 as a function: all fields present, the
    first missing one, or the exception of [in]. *)
Inductive validation : Type :=
| Valid
| Missing (field : string)
| Raises (e : exception).

Fixpoint validate (fields : list string) (v : json) : validation :=
  match fields with
  | [] => Valid
  | field :: rest =>
      match py_in field v with
      | inl true => validate rest v
      | inl false => Missing field
      | inr e => Raises e
      end
  end.

(** The line printed by the handlers of lines 129-134. *)
Definition analysis_failure_line (e : exception) : string :=
  match e with
  | JSONDecodeError msg => "✗ JSON parsing error: " ++ msg
  | _ => "✗ Analysis error: " ++ str_of_exception e
  end.

(** What [run_futfw_analysis] returns and last prints, from the content
    of the answer. *)
Definition analysis_of_content (w : World) (content : string)
  : option json * string :=
  match json_boundaries (strip_fences (PyStr.strip content)) with
  | None => (None, "✗ No valid JSON found in response")
  | Some json_str =>
      match json_loads w json_str with
      | inr e => (None, analysis_failure_line e)
      | inl v =>
          match validate required_fields v with
          | Valid => (Some v, "✓ Analysis completed successfully")
          | Missing field => (None, "Missing required field: " ++ field)
          | Raises e => (None, analysis_failure_line e)
          end
      end
  end.

(** What [run_futfw_analysis] returns and adds to the trace [t]. *)
Definition analysis_run (w : World) (symbol : string) (t : Trace)
  : option json * list Event :=
  let started := LogLine (JString symbol) "Starting analysis..." in
  match chat_completions_create w (t ++ [started])%list symbol with
  | inr e =>
      (None, [started; ChatCompletion symbol;
              LogLine (JString symbol) (analysis_failure_line e)])
  | inl content =>
      (fst (analysis_of_content w content),
       [started; ChatCompletion symbol;
        LogLine (JString symbol) "Received response from Perplexity AI";
        LogLine (JString symbol) (snd (analysis_of_content w content))])
  end.

(** [analysis.get('symbol', 'UNKNOWN')] on a dict. *)
Definition symbol_of (members : list (string * json)) : json :=
  match List.find (fun kv => String.eqb "symbol" (fst kv)) members with
  | Some kv => snd kv
  | None => JString "UNKNOWN"
  end.

Definition webhook_headers : list (string * string) :=
  [("Content-Type", "application/json"); ("x-api-key", WEBHOOK_API_KEY)].

Definition webhook_ok (r : Z + exception) : bool :=
  match r with
  | inl status_code => status_code =? 200
  | inr _ => false
  end.

Definition webhook_line (r : Z + exception) : string :=
  match r with
  | inl status_code =>
      if status_code =? 200 then "✓ Successfully sent to dashboard"
      else "✗ Webhook error: HTTP " ++ PyStr.of_int status_code
  | inr (Timeout _) => "✗ Webhook timeout after 30 seconds"
  | inr e => "✗ Webhook error: " ++ str_of_exception e
  end.

(** What [send_to_webhook] returns and adds to the trace [t], on a
    dict. *)
Definition webhook_run (w : World) (members : list (string * json))
    (t : Trace) : bool * list Event :=
  let sending := LogLine (symbol_of members) "Sending to dashboard..." in
  let r := requests_post w (t ++ [sending])%list (JDict members) in
  (webhook_ok r,
   [sending; HttpPost WEBHOOK_URL webhook_headers (JDict members) 30;
    LogLine (symbol_of members) (webhook_line r)]).

(** What [process_symbol] returns and adds to the trace [t]. *)
Definition symbol_run (w : World) (symbol : string) (counts : Counts)
    (t : Trace) : (Counts + exn) * list Event :=
  let processing := LogLine SYSTEM ("Processing " ++ symbol ++ "...") in
  let a := analysis_run w symbol (t ++ [processing])%list in
  let dashes := LogLine SYSTEM (PyStr.repeat "-" 60) in
  let skipped :=
    (inl (fst counts, snd counts + 1),
     (processing :: snd a
      ++ [LogLine (JString symbol)
            ("⚠️  Skipping " ++ symbol ++ " - analysis failed");
          dashes])%list) in
  match fst a with
  | None => skipped
  | Some record =>
      if truthy record then
        match record with
        | JDict members =>
            let p := webhook_run w members (t ++ processing :: snd a)%list in
            (inl (if fst p then (fst counts + 1, snd counts)
                  else (fst counts, snd counts + 1)),
             (processing :: snd a ++ snd p ++ [dashes])%list)
        | _ =>
            (inr (Exception (OtherException "object has no attribute 'get'")),
             (processing :: snd a)%list)
        end
      else skipped
  end.

(** ** The prompt *)

(** Each line followed by a newline. *)
Fixpoint unlines (ls : list string) : string :=
  match ls with
  | [] => ""
  | l :: ls' => l ++ String "010" (unlines ls')
  end.

(** [FUTFW_PROMPT_TEMPLATE.format(symbol=symbol)] (lines 25-59 and 85):
    the template line by line, [symbol] in the place of each
    [{symbol}], one brace for each doubled brace, and [Decoder.q s] for
    [s] between double quotes. *)
Definition FUTFW_PROMPT_TEMPLATE (symbol : string) : string :=
  unlines
  ["";
   "FUTFW v1 - Futures Trade For Wins Analysis for " ++ symbol;
   "";
   "Analyze " ++ symbol
     ++ " for trading opportunities using 1-hour and 15-minute timeframes:";
   "";
   "**Context Analysis:**";
   "- 1-hour trend: Identify overall market direction (bullish/bearish/neutral)";
   "- 15-minute trend: Identify immediate momentum direction";
   "";
   "**Entry Criteria:**";
   "- Identify best 1-minute and 5-minute entry points with technical confluence";
   "- List current support and resistance levels";
   "- Calculate entry price, stop loss, and take profit levels based on current market structure";
   "";
   "**Current Market Data:**";
   "- Get the latest price for " ++ symbol;
   "- Analyze recent price action and volume";
   "";
   "**Output Requirements:**";
   "Provide a valid JSON object with this exact structure:";
   "{";
   "  " ++ Decoder.q "symbol" ++ ": " ++ Decoder.q symbol ++ ",";
   "  " ++ Decoder.q "trend_1h" ++ ": "
     ++ Decoder.q "bullish|bearish|neutral" ++ ",";
   "  " ++ Decoder.q "trend_15m" ++ ": "
     ++ Decoder.q "bullish|bearish|neutral" ++ ",";
   "  " ++ Decoder.q "current_price" ++ ": <number>,";
   "  " ++ Decoder.q "entry_price" ++ ": <number>,";
   "  " ++ Decoder.q "stop_loss" ++ ": <number>,";
   "  " ++ Decoder.q "take_profit" ++ ": <number>,";
   "  " ++ Decoder.q "support_levels" ++ ": [<number>, <number>],";
   "  " ++ Decoder.q "resistance_levels" ++ ": [<number>, <number>],";
   "  " ++ Decoder.q "entry_signal" ++ ": "
     ++ Decoder.q "<brief description of the trade setup>";
   "}";
   "";
   "IMPORTANT: Return ONLY valid JSON, no markdown formatting or extra text."].

(** ** Further auxiliary definitions *)

(** Neither brace occurs in [s]. *)
Fixpoint brace_free (s : string) : bool :=
  match s with
  | EmptyString => true
  | String a s' =>
      negb (Ascii.eqb a "{") && negb (Ascii.eqb a "}") && brace_free s'
  end.

(** * Properties *)

(** ** Searching and slicing *)

Module PyStrFacts.
Import PyStr Described.

Lemma append_empty_r (s : string) : s ++ "" = s.
Proof. induction s; simpl; congruence. Qed.

Lemma append_assoc (a b c : string) : (a ++ b) ++ c = a ++ b ++ c.
Proof. induction a; simpl; congruence. Qed.

Lemma length_append (a b : string) :
  String.length (a ++ b) = (String.length a + String.length b)%nat.
Proof. induction a; simpl; congruence. Qed.

Lemma length_zero (s : string) : String.length s = O -> s = "".
Proof. destruct s; simpl; [reflexivity | discriminate]. Qed.

Lemma drop_append (a b : string) : drop (String.length a) (a ++ b) = b.
Proof. induction a; simpl; [destruct b; reflexivity | assumption]. Qed.

Lemma take_append (a b : string) : take (String.length a) (a ++ b) = a.
Proof. induction a; simpl; [destruct b; reflexivity | congruence]. Qed.

Lemma drop_zero (s : string) : drop 0 s = s.
Proof. destruct s; reflexivity. Qed.

Lemma substring_take_drop (n m : nat) (s : string) :
  substring n m s = take m (drop n s).
Proof.
  revert n m; induction s as [| a s IH]; intros [| n] [| m]; simpl;
    try reflexivity.
  - f_equal. rewrite IH. now rewrite drop_zero.
  - apply IH.
  - apply IH.
Qed.

(** [prefix] decides whether a text begins with another. *)
Lemma prefix_true (sub s : string) :
  prefix sub s = true <-> exists post, s = sub ++ post.
Proof.
  revert s; induction sub as [| a sub IH]; intros s; simpl.
  - destruct s; split; eauto.
  - destruct s as [| b s]; simpl.
    + split; [discriminate | intros [post H]; discriminate].
    + destruct (ascii_dec a b) as [-> | Hne].
      * rewrite IH. split; intros [post H]; exists post; congruence.
      * split; [discriminate | intros [post H]; congruence].
Qed.

Lemma occurs_at_zero (sub s : string) :
  occurs_at sub s 0 <-> prefix sub s = true.
Proof.
  rewrite prefix_true. split.
  - intros (pre & post & -> & Hlen). apply length_zero in Hlen; subst.
    now exists post.
  - intros [post ->]. now exists "", post.
Qed.

Lemma occurs_at_succ (sub : string) (a : ascii) (s : string) (n : nat) :
  occurs_at sub (String a s) (S n) <-> occurs_at sub s n.
Proof.
  split.
  - intros (pre & post & H & Hlen). destruct pre as [| b pre]; [discriminate |].
    simpl in *. injection H as -> ->. exists pre, post. split; [reflexivity | lia].
  - intros (pre & post & -> & Hlen). exists (String a pre), post.
    simpl. split; [reflexivity | lia].
Qed.

Lemma occurs_at_bound (sub s : string) (n : nat) :
  occurs_at sub s n -> (n + String.length sub <= String.length s)%nat.
Proof.
  intros (pre & post & -> & <-). rewrite !length_append. lia.
Qed.

Lemma find_first_none (sub s : string) :
  find_first sub s = None -> ~ occurs sub s.
Proof.
  induction s as [| a s IH]; cbn [find_first find_last].
  - destruct (prefix sub "") eqn:Hp; [discriminate |].
    intros _ [n H]. pose proof (occurs_at_bound _ _ _ H) as Hb. simpl in Hb.
    assert (n = O) by lia; subst. apply occurs_at_zero in H. congruence.
  - destruct (prefix sub (String a s)) eqn:Hp; [discriminate |].
    destruct (find_first sub s); [discriminate |].
    intros _ [[| n] H].
    + apply occurs_at_zero in H. congruence.
    + apply occurs_at_succ in H. apply IH; [reflexivity | now exists n].
Qed.

Lemma find_first_some (sub s : string) (n : nat) :
  find_first sub s = Some n -> first_at sub s n.
Proof.
  revert n; induction s as [| a s IH]; intros n; cbn [find_first find_last].
  - destruct (prefix sub "") eqn:Hp; [| discriminate].
    intros [= <-]. split; [now apply occurs_at_zero | intros m Hm; lia].
  - destruct (prefix sub (String a s)) eqn:Hp.
    + intros [= <-]. split; [now apply occurs_at_zero | intros m Hm; lia].
    + destruct (find_first sub s) as [k |]; [| discriminate].
      intros [= <-]. destruct (IH k eq_refl) as [Hk Hmin]. split.
      * now apply occurs_at_succ.
      * intros [| m] Hm H.
        -- apply occurs_at_zero in H. congruence.
        -- apply occurs_at_succ in H. apply (Hmin m); [lia | assumption].
Qed.

Lemma first_at_unique (sub s : string) (n m : nat) :
  first_at sub s n -> first_at sub s m -> n = m.
Proof.
  intros [Hn Hn'] [Hm Hm'].
  destruct (Nat.lt_trichotomy n m) as [H | [H | H]]; [| assumption |].
  - exfalso. now apply (Hm' n).
  - exfalso. now apply (Hn' m).
Qed.

Lemma first_at_find (sub s : string) (n : nat) :
  first_at sub s n -> find_first sub s = Some n.
Proof.
  intros H. destruct (find_first sub s) as [m |] eqn:E.
  - f_equal. apply (first_at_unique sub s); [now apply find_first_some | assumption].
  - exfalso. apply (find_first_none _ _ E). exists n. apply H.
Qed.

Lemma not_occurs_find (sub s : string) :
  ~ occurs sub s -> find_first sub s = None.
Proof.
  intros H. destruct (find_first sub s) as [m |] eqn:E; [| reflexivity].
  exfalso. apply H. exists m. now apply find_first_some.
Qed.

Lemma find_last_none (sub s : string) :
  find_last sub s = None -> ~ occurs sub s.
Proof.
  induction s as [| a s IH]; cbn [find_first find_last].
  - destruct (prefix sub "") eqn:Hp; [discriminate |].
    intros _ [n H]. pose proof (occurs_at_bound _ _ _ H) as Hb. simpl in Hb.
    assert (n = O) by lia; subst. apply occurs_at_zero in H. congruence.
  - destruct (find_last sub s); [discriminate |].
    destruct (prefix sub (String a s)) eqn:Hp; [discriminate |].
    intros _ [[| n] H].
    + apply occurs_at_zero in H. congruence.
    + apply occurs_at_succ in H. apply IH; [reflexivity | now exists n].
Qed.

Lemma find_last_some (sub s : string) (n : nat) :
  find_last sub s = Some n -> last_at sub s n.
Proof.
  revert n; induction s as [| a s IH]; intros n; cbn [find_first find_last].
  - destruct (prefix sub "") eqn:Hp; [| discriminate].
    intros [= <-]. split; [now apply occurs_at_zero |].
    intros m Hm H. apply occurs_at_bound in H. simpl in H. lia.
  - destruct (find_last sub s) as [k |] eqn:E.
    + intros [= <-]. destruct (IH k eq_refl) as [Hk Hmax]. split.
      * now apply occurs_at_succ.
      * intros [| m] Hm H; [lia |].
        apply occurs_at_succ in H. apply (Hmax m); [lia | assumption].
    + destruct (prefix sub (String a s)) eqn:Hp; [| discriminate].
      intros [= <-]. split; [now apply occurs_at_zero |].
      intros [| m] Hm H; [lia |].
      apply occurs_at_succ in H. apply (find_last_none _ _ E). now exists m.
Qed.

Lemma last_at_unique (sub s : string) (n m : nat) :
  last_at sub s n -> last_at sub s m -> n = m.
Proof.
  intros [Hn Hn'] [Hm Hm'].
  destruct (Nat.lt_trichotomy n m) as [H | [H | H]]; [| assumption |].
  - exfalso. now apply (Hn' m).
  - exfalso. now apply (Hm' n).
Qed.

Lemma last_at_find (sub s : string) (n : nat) :
  last_at sub s n -> find_last sub s = Some n.
Proof.
  intros H. destruct (find_last sub s) as [m |] eqn:E.
  - f_equal. apply (last_at_unique sub s); [now apply find_last_some | assumption].
  - exfalso. apply (find_last_none _ _ E). exists n. apply H.
Qed.

Lemma not_occurs_find_last (sub s : string) :
  ~ occurs sub s -> find_last sub s = None.
Proof.
  intros H. destruct (find_last sub s) as [m |] eqn:E; [| reflexivity].
  exfalso. apply H. exists m. now apply find_last_some.
Qed.

(** *** Searches and slices at the offsets the script uses *)

Lemma len_nonneg (s : string) : (0 <= len s)%Z.
Proof. unfold len. lia. Qed.

Lemma find_from (sub pre rest : string) :
  find (pre ++ rest) sub (Z.of_nat (String.length pre)) =
  match find_first sub rest with
  | Some n => (Z.of_nat (String.length pre) + Z.of_nat n)%Z
  | None => (-1)%Z
  end.
Proof.
  unfold find, clip, len. rewrite length_append.
  destruct (Z.ltb_spec (Z.of_nat (String.length pre + String.length rest))
              (Z.of_nat (String.length pre))) as [H | _]; [lia |].
  destruct (Z.ltb_spec (Z.of_nat (String.length pre)) 0) as [H | _]; [lia |].
  rewrite Z.min_l by lia. rewrite Nat2Z.id, drop_append. reflexivity.
Qed.

Lemma find_zero (sub s : string) :
  find s sub 0 =
  match find_first sub s with
  | Some n => Z.of_nat n
  | None => (-1)%Z
  end.
Proof.
  pose proof (find_from sub "" s) as H. simpl in H. rewrite H.
  destruct (find_first sub s); reflexivity.
Qed.

Lemma slice_nat (s : string) (i j : nat) :
  (i <= String.length s)%nat -> (j <= String.length s)%nat ->
  slice s (Z.of_nat i) (Z.of_nat j) = take (j - i) (drop i s).
Proof.
  intros Hi Hj. unfold slice, clip, len.
  destruct (Z.ltb_spec (Z.of_nat i) 0) as [H | _]; [lia |].
  destruct (Z.ltb_spec (Z.of_nat j) 0) as [H | _]; [lia |].
  rewrite !Z.min_l by lia. rewrite Nat2Z.id.
  replace (Z.to_nat (Z.of_nat j - Z.of_nat i)) with (j - i)%nat by lia.
  reflexivity.
Qed.

(** [s[i:-1]] *)
Lemma slice_minus_one (s : string) (i : nat) :
  (i <= String.length s)%nat ->
  slice s (Z.of_nat i) (-1) = take (String.length s - 1 - i) (drop i s).
Proof.
  intros Hi. unfold slice, clip, len.
  destruct (Z.ltb_spec (Z.of_nat i) 0) as [H | _]; [lia |].
  destruct (Z.ltb_spec (-1) 0) as [_ | H]; [| lia].
  rewrite Z.min_l by lia. rewrite Nat2Z.id.
  replace (Z.to_nat (Z.max 0 (-1 + Z.of_nat (String.length s)) - Z.of_nat i))
    with (String.length s - 1 - i)%nat by lia.
  reflexivity.
Qed.

Lemma take_drop_append (k i : nat) (s t : string) :
  (i + k <= String.length s)%nat ->
  take k (drop i (s ++ t)) = take k (drop i s).
Proof.
  revert k i; induction s as [| a s IH]; intros k i H; simpl in H.
  - assert (i = O) by lia. assert (k = O) by lia. subst.
    destruct t; reflexivity.
  - destruct i as [| i]; simpl.
    + destruct k as [| k]; simpl; [reflexivity |]. f_equal.
      specialize (IH k O). rewrite !drop_zero in IH. apply IH. lia.
    + apply IH. lia.
Qed.

(** *** The boundaries of the payload *)

Lemma json_boundaries_span (s : string) : json_boundaries s = span s.
Proof.
  unfold json_boundaries, span, rfind. rewrite find_zero.
  destruct (find_first "{" s) as [i |] eqn:Ei; [| reflexivity].
  destruct (find_last "}" s) as [j |] eqn:Ej.
  - apply find_first_some in Ei. destruct Ei as [Ei _].
    apply occurs_at_bound in Ei. simpl in Ei.
    apply find_last_some in Ej. destruct Ej as [Ej _].
    apply occurs_at_bound in Ej. simpl in Ej.
    destruct (Z.eqb_spec (Z.of_nat i) (-1)) as [H | _]; [lia |].
    destruct (Z.eqb_spec (Z.of_nat j + 1) 0) as [H | _]; [lia |].
    simpl. f_equal.
    replace (Z.of_nat j + 1)%Z with (Z.of_nat (j + 1)) by lia.
    apply slice_nat; lia.
  - destruct (Z.of_nat i =? -1)%Z; reflexivity.
Qed.

Lemma space_not_brace (a : ascii) :
  is_space a = true -> a <> "{"%char /\ a <> "}"%char.
Proof. intros H; split; intros ->; discriminate. Qed.

Lemma prefix_single (c a : ascii) (s : string) :
  prefix (String c "") (String a s) = if ascii_dec c a then true else false.
Proof. simpl. destruct (ascii_dec c a); [destruct s |]; reflexivity. Qed.

Lemma prefix_single_cons (c a : ascii) (s : string) :
  a <> c -> prefix (String c "") (String a s) = false.
Proof.
  intros H. simpl. destruct (ascii_dec c a) as [-> | _]; [congruence | reflexivity].
Qed.

Lemma span_cons (a : ascii) (s : string) :
  a <> "{"%char -> a <> "}"%char -> span (String a s) = span s.
Proof.
  intros H1 H2. unfold span. cbn [find_first find_last].
  rewrite !prefix_single_cons by assumption.
  destruct (find_first "{" s) as [i |]; [| reflexivity].
  destruct (find_last "}" s) as [j |]; reflexivity.
Qed.

Lemma find_first_snoc (c a : ascii) (s : string) :
  a <> c ->
  find_first (String c "") (s ++ String a "") = find_first (String c "") s.
Proof.
  intros H. induction s as [| b s IH].
  - cbn [append find_first]. rewrite prefix_single_cons by assumption.
    reflexivity.
  - cbn [append find_first]. rewrite IH, !prefix_single. reflexivity.
Qed.

Lemma find_last_snoc (c a : ascii) (s : string) :
  a <> c ->
  find_last (String c "") (s ++ String a "") = find_last (String c "") s.
Proof.
  intros H. induction s as [| b s IH].
  - cbn [append find_last]. rewrite prefix_single_cons by assumption.
    reflexivity.
  - cbn [append find_last]. rewrite IH, !prefix_single. reflexivity.
Qed.

Lemma span_snoc (a : ascii) (s : string) :
  a <> "{"%char -> a <> "}"%char -> span (s ++ String a "") = span s.
Proof.
  intros H1 H2. unfold span.
  rewrite find_first_snoc, find_last_snoc by assumption.
  destruct (find_first "{" s) as [i |] eqn:Ei; [| reflexivity].
  destruct (find_last "}" s) as [j |] eqn:Ej; [| reflexivity].
  apply find_first_some in Ei. destruct Ei as [Ei _].
  apply occurs_at_bound in Ei. simpl in Ei.
  apply find_last_some in Ej. destruct Ej as [Ej _].
  apply occurs_at_bound in Ej. simpl in Ej.
  f_equal. apply take_drop_append. lia.
Qed.

Lemma span_append_spaces (w s : string) :
  all_space w = true -> span (s ++ w) = span s.
Proof.
  revert s; induction w as [| a w IH]; intros s H.
  - now rewrite append_empty_r.
  - simpl in H. apply andb_prop in H. destruct H as [Ha Hw].
    replace (s ++ String a w) with ((s ++ String a "") ++ w)
      by (rewrite append_assoc; reflexivity).
    rewrite IH by assumption.
    apply space_not_brace in Ha. now apply span_snoc.
Qed.

Lemma span_lstrip (s : string) : span (lstrip s) = span s.
Proof.
  induction s as [| a s IH]; simpl; [reflexivity |].
  destruct (is_space a) eqn:Ha; [| reflexivity].
  apply space_not_brace in Ha. rewrite IH. symmetry. now apply span_cons.
Qed.

Lemma rstrip_spaces (s : string) :
  exists w, s = rstrip s ++ w /\ all_space w = true.
Proof.
  induction s as [| a s (w & Hs & Hw)]; [now exists "" |].
  cbn [rstrip]. destruct (rstrip s) as [| b r] eqn:Hr.
  - simpl in Hs. subst w. destruct (is_space a) eqn:Ha.
    + exists (String a s). split; [reflexivity |]. simpl. now rewrite Ha.
    + exists s. split; [reflexivity | assumption].
  - exists w. split; [| assumption]. simpl. simpl in Hs. congruence.
Qed.

Lemma span_rstrip (s : string) : span (rstrip s) = span s.
Proof.
  destruct (rstrip_spaces s) as (w & Hs & Hw).
  rewrite Hs at 2. symmetry. now apply span_append_spaces.
Qed.

Lemma span_strip (s : string) : span (strip s) = span s.
Proof. unfold strip. now rewrite span_lstrip, span_rstrip. Qed.

Lemma json_boundaries_strip (s : string) :
  json_boundaries (strip s) = json_boundaries s.
Proof. rewrite !json_boundaries_span. apply span_strip. Qed.

End PyStrFacts.

(** ** Fences and boundaries *)

Module ExtractionFacts.
Import PyStr Described PyStrFacts.

Lemma occurs_json_fence (text : string) :
  occurs "```json" text -> occurs "```" text.
Proof.
  intros (n & pre & post & -> & Hn). exists n, pre, ("json" ++ post).
  split; [reflexivity | assumption].
Qed.

(** What the two searches and the slice of lines 97-99 and 101-103
    compute when the fence is closed. *)
Lemma fenced_slice (tag text content : string) :
  fenced tag text content ->
  contains tag text = true /\
  let start := (find text tag 0 + Z.of_nat (String.length tag))%Z in
  slice text start (find text "```" start) = content.
Proof.
  intros [pre rest post Htext Hfirst Hrest Hnext].
  apply first_at_find in Hfirst. apply first_at_find in Hnext.
  split; [unfold contains; now rewrite Hfirst |].
  cbv zeta. rewrite find_zero, Hfirst.
  replace (Z.of_nat (String.length pre) + Z.of_nat (String.length tag))%Z
    with (Z.of_nat (String.length (pre ++ tag)))
    by (rewrite length_append; lia).
  assert (Ht : text = (pre ++ tag) ++ rest)
    by (rewrite append_assoc; exact Htext).
  pose proof (find_from "```" (pre ++ tag) rest) as Hf.
  rewrite <- Ht in Hf. rewrite Hf, Hnext. clear Hf.
  rewrite <- Nat2Z.inj_add.
  rewrite slice_nat.
  - rewrite Ht, drop_append.
    replace (String.length (pre ++ tag) + String.length content
             - String.length (pre ++ tag))%nat
      with (String.length content) by lia.
    rewrite Hrest. apply take_append.
  - rewrite Ht, !length_append. lia.
  - rewrite Ht, Hrest, !length_append. lia.
Qed.

Lemma strip_fences_json (text content : string) :
  fenced "```json" text content -> strip_fences text = strip content.
Proof.
  intros H. apply fenced_slice in H. destruct H as [Hc Hs].
  unfold strip_fences. rewrite Hc. cbv zeta in Hs. simpl String.length in Hs.
  change (Z.of_nat 7) with 7%Z in Hs. now rewrite Hs.
Qed.

Lemma strip_fences_fence (text content : string) :
  ~ occurs "```json" text -> fenced "```" text content ->
  strip_fences text = strip content.
Proof.
  intros Hj H. apply fenced_slice in H. destruct H as [Hc Hs].
  unfold strip_fences. unfold contains at 1.
  rewrite (not_occurs_find _ _ Hj), Hc.
  cbv zeta in Hs. simpl String.length in Hs.
  change (Z.of_nat 3) with 3%Z in Hs. now rewrite Hs.
Qed.

Lemma strip_fences_verbatim (text : string) :
  ~ occurs "```" text -> strip_fences text = text.
Proof.
  intros H. unfold strip_fences, contains.
  rewrite (not_occurs_find "```json" text)
    by (intros Hj; apply H; now apply occurs_json_fence).
  now rewrite (not_occurs_find _ _ H).
Qed.

Lemma candidate_span_eq (text : string) (c : option string) :
  candidate text c -> span text = c.
Proof.
  intros [i j Hi Hj | [H | H]]; unfold span.
  - rewrite (first_at_find _ _ _ Hi), (last_at_find _ _ _ Hj).
    now rewrite substring_take_drop.
  - now rewrite (not_occurs_find _ _ H).
  - rewrite (not_occurs_find_last _ _ H).
    now destruct (find_first "{" text).
Qed.

Lemma selected_strip_fences (text content : string) :
  selected text content ->
  json_boundaries (strip_fences text) = json_boundaries content.
Proof.
  intros [c H | c Hj H |H].
  - rewrite (strip_fences_json _ _ H). apply json_boundaries_strip.
  - rewrite (strip_fences_fence _ _ Hj H). apply json_boundaries_strip.
  - now rewrite (strip_fences_verbatim _ H).
Qed.

(** What lines 97-99 and 101-103 compute when the fence is not
    closed: the closing search answers -1, which the slice reads as
    "up to the last character". *)
Lemma unclosed_slice (tag text : string) (start : nat) :
  unclosed tag text start ->
  contains tag text = true /\
  (find text tag 0 + Z.of_nat (String.length tag))%Z = Z.of_nat start /\
  find text "```" (Z.of_nat start) = (-1)%Z /\
  slice text (Z.of_nat start) (-1) =
    substring start (String.length text - 1 - start) text.
Proof.
  intros [pre rest Htext Hfirst Hstart Hnone].
  apply first_at_find in Hfirst. apply not_occurs_find in Hnone.
  assert (Ht : text = (pre ++ tag) ++ rest)
    by (rewrite append_assoc; exact Htext).
  assert (Hs : start = String.length (pre ++ tag))
    by (rewrite length_append; exact Hstart).
  split; [unfold contains; now rewrite Hfirst |].
  split; [rewrite find_zero, Hfirst; lia |].
  split.
  - pose proof (find_from "```" (pre ++ tag) rest) as Hf.
    rewrite <- Ht, <- Hs in Hf. now rewrite Hf, Hnone.
  - rewrite slice_minus_one, substring_take_drop; [reflexivity |].
    rewrite Hs, Ht, !length_append. lia.
Qed.

Lemma strip_fences_unclosed_json (text : string) (start : nat) :
  unclosed "```json" text start ->
  strip_fences text =
    strip (substring start (String.length text - 1 - start) text).
Proof.
  intros H. apply unclosed_slice in H. destruct H as (Hc & Hs & He & Hsl).
  unfold strip_fences. rewrite Hc. simpl String.length in Hs.
  change (Z.of_nat 7) with 7%Z in Hs. now rewrite Hs, He, Hsl.
Qed.

Lemma strip_fences_unclosed_fence (text : string) (start : nat) :
  ~ occurs "```json" text -> unclosed "```" text start ->
  strip_fences text =
    strip (substring start (String.length text - 1 - start) text).
Proof.
  intros Hj H. apply unclosed_slice in H. destruct H as (Hc & Hs & He & Hsl).
  unfold strip_fences. unfold contains at 1.
  rewrite (not_occurs_find _ _ Hj), Hc. simpl String.length in Hs.
  change (Z.of_nat 3) with 3%Z in Hs. now rewrite Hs, He, Hsl.
Qed.

End ExtractionFacts.

(** ** The analysis *)

Module RunFacts.

Ltac step :=
  cbv [bind ret raise emit history log_message answer try_except
       call_completion call_post sys_exit].

Lemma check_fields_validate (fields : list string) (v : json)
    (symbol : string) (t : Trace) :
  check_fields fields v symbol t =
  match validate fields v with
  | Valid =>
      (inl (Some v),
       (t ++ [LogLine (JString symbol) "✓ Analysis completed successfully"])%list)
  | Missing field =>
      (inl None,
       (t ++ [LogLine (JString symbol) ("Missing required field: " ++ field)])%list)
  | Raises e => (inr (Exception e), t)
  end.
Proof.
  induction fields as [| f rest IH]; cbn [check_fields validate].
  - reflexivity.
  - step. destruct (py_in f v) as [[|] | e]; cbn [negb].
    + apply IH.
    + reflexivity.
    + reflexivity.
Qed.

Lemma run_futfw_analysis_eq (w : World) (symbol : string) (t : Trace) :
  run_futfw_analysis w symbol t =
  (inl (fst (analysis_run w symbol t)),
   (t ++ snd (analysis_run w symbol t))%list).
Proof.
  unfold run_futfw_analysis, analysis_run. step.
  destruct (chat_completions_create w _ symbol) as [content | e].
  - unfold analysis_of_content.
    destruct (json_boundaries _) as [js |].
    + destruct (json_loads w js) as [v | e].
      * rewrite check_fields_validate.
        destruct (validate required_fields v) as [| f | e]; cbn [fst snd];
          try destruct e; rewrite <- ?app_assoc; reflexivity.
      * destruct e; cbn [fst snd]; rewrite <- ?app_assoc; reflexivity.
    + cbn [fst snd]. rewrite <- ?app_assoc. reflexivity.
  - destruct e; cbn [fst snd]; rewrite <- ?app_assoc; reflexivity.
Qed.

End RunFacts.

(** ** The publication and one iteration of the loop *)

Module DriverFacts.
Import RunFacts.

Lemma send_to_webhook_dict (w : World) (members : list (string * json))
    (t : Trace) :
  send_to_webhook w (JDict members) t =
  (inl (fst (webhook_run w members t)),
   (t ++ snd (webhook_run w members t))%list).
Proof.
  unfold send_to_webhook, webhook_run, symbol_of, webhook_headers. step.
  cbn [py_get].
  destruct (List.find _ members) as [kv |];
    (destruct (requests_post w _ (JDict members)) as [code | e];
     [destruct (code =? 200) eqn:E; cbn [fst snd webhook_ok webhook_line];
      rewrite E, <- ?app_assoc; reflexivity
     | destruct e; cbn [fst snd webhook_ok webhook_line];
       rewrite <- ?app_assoc; reflexivity]).
Qed.

Lemma send_to_webhook_other (w : World) (record : json) (t : Trace) :
  (forall members, record <> JDict members) ->
  send_to_webhook w record t =
  (inr (Exception (OtherException "object has no attribute 'get'")), t).
Proof.
  intros H. unfold send_to_webhook. step.
  destruct record; try reflexivity. now destruct (H members).
Qed.

Lemma process_symbol_eq (w : World) (symbol : string) (counts : Counts)
    (t : Trace) :
  process_symbol w symbol counts t =
  (fst (symbol_run w symbol counts t),
   (t ++ snd (symbol_run w symbol counts t))%list).
Proof.
  destruct counts as [s f]. unfold process_symbol, symbol_run. step.
  rewrite run_futfw_analysis_eq. cbn [fst snd].
  set (t1 := (t ++ [LogLine SYSTEM ("Processing " ++ symbol ++ "...")])%list).
  assert (Ht1 : forall l, (t ++ LogLine SYSTEM ("Processing " ++ symbol ++ "...")
                             :: l = t1 ++ l)%list)
    by (intros l; unfold t1; rewrite <- app_assoc; reflexivity).
  destruct (fst (analysis_run w symbol t1)) as [record |].
  - destruct (truthy record).
    + destruct record;
        try (rewrite send_to_webhook_other by discriminate;
             cbn [fst snd]; now rewrite Ht1).
      rewrite send_to_webhook_dict, Ht1.
      destruct (fst (webhook_run w members _)); cbn [fst snd];
        rewrite Ht1, <- !app_assoc; reflexivity.
    + cbn [fst snd]. rewrite Ht1, <- !app_assoc. reflexivity.
  - cbn [fst snd]. rewrite Ht1, <- !app_assoc. reflexivity.
Qed.

End DriverFacts.

(** ** Validation *)

Module ValidationFacts.
Import PyStr Described PyStrFacts RunFacts.

Lemma drop_occurs_at (sub s : string) (n : nat) :
  occurs_at sub s n -> exists post, drop n s = sub ++ post.
Proof.
  intros (pre & post & -> & <-). exists post. apply drop_append.
Qed.

Lemma json_boundaries_shape (s json_str : string) :
  json_boundaries s = Some json_str ->
  json_str = "" \/ exists rest, json_str = String "{" rest.
Proof.
  rewrite json_boundaries_span. unfold span.
  destruct (find_first "{" s) as [i |] eqn:Ei; [| discriminate].
  destruct (find_last "}" s) as [j |]; [| discriminate].
  intros [= <-]. apply find_first_some in Ei. destruct Ei as [Ei _].
  apply drop_occurs_at in Ei. destruct Ei as [post ->].
  destruct (j + 1 - i)%nat; simpl; eauto.
Qed.

Lemma key_present (key : string) (members : list (string * json)) :
  existsb (fun kv => String.eqb key (fst kv)) members = true <->
  In key (map fst members).
Proof.
  rewrite existsb_exists, in_map_iff. split.
  - intros (kv & Hin & Heq). apply String.eqb_eq in Heq. eauto.
  - intros (kv & Heq & Hin). exists kv. split; [assumption |].
    now apply String.eqb_eq.
Qed.

Lemma validate_dict (fields : list string) (members : list (string * json)) :
  match validate fields (JDict members) with
  | Valid => forall f, In f fields -> In f (map fst members)
  | Missing f => In f fields /\ ~ In f (map fst members)
  | Raises _ => False
  end.
Proof.
  induction fields as [| f rest IH]; cbn [validate py_in].
  - intros f [].
  - destruct (existsb _ members) eqn:E.
    + apply key_present in E.
      destruct (validate rest (JDict members)).
      * intros g [<- | Hg]; auto.
      * destruct IH as [H1 H2]. split; [now right | assumption].
      * assumption.
    + split; [now left |]. intros H. apply key_present in H. congruence.
Qed.

Lemma validate_dict_valid (fields : list string)
    (members : list (string * json)) :
  validate fields (JDict members) = Valid <->
  forall f, In f fields -> In f (map fst members).
Proof.
  pose proof (validate_dict fields members) as H. split.
  - intros E. now rewrite E in H.
  - intros Hall. destruct (validate fields (JDict members)) as [| f | e].
    + reflexivity.
    + destruct H as [H1 H2]. now destruct (H2 (Hall f H1)).
    + destruct H.
Qed.

(** What a returned record went through. *)
Lemma analysis_some (w : World) (symbol : string) (t : Trace) (v : json) :
  fst (analysis_run w symbol t) = Some v ->
  exists json_str,
    (json_str = "" \/ exists rest, json_str = String "{" rest) /\
    json_loads w json_str = inl v /\
    validate required_fields v = Valid.
Proof.
  unfold analysis_run.
  destruct (chat_completions_create w _ symbol) as [content | e];
    [| discriminate].
  cbn [fst]. unfold analysis_of_content.
  destruct (json_boundaries _) as [js |] eqn:Ejs; [| discriminate].
  destruct (json_loads w js) as [v' | e] eqn:Ev; [| discriminate].
  destruct (validate required_fields v') eqn:Eval; try discriminate.
  intros [= <-]. exists js. split; [| split]; try assumption.
  now apply json_boundaries_shape in Ejs.
Qed.

Lemma analysis_valid (w : World) (symbol : string) (t : Trace) (v : json) :
  decodes_objects w ->
  fst (analysis_run w symbol t) = Some v ->
  has_keys required_fields v.
Proof.
  intros Hw H. apply analysis_some in H.
  destruct H as (js & Hshape & Hload & Hval).
  destruct (Hw js v Hload Hshape) as [members ->].
  exists members. split; [reflexivity |]. now apply validate_dict_valid.
Qed.

Lemma has_keys_truthy (record : json) :
  has_keys required_fields record -> truthy record = true.
Proof.
  intros (members & -> & H). destruct members as [| kv members].
  - destruct (H "symbol"). now left.
  - reflexivity.
Qed.

End ValidationFacts.

Module LoopFacts.
Import RunFacts DriverFacts ValidationFacts.

Lemma completions_app (a b : list Event) :
  completions (a ++ b) = (completions a ++ completions b)%list.
Proof. apply flat_map_app. Qed.

Lemma posts_app (a b : list Event) :
  posts (a ++ b) = (posts a ++ posts b)%list.
Proof. apply flat_map_app. Qed.

Lemma analysis_run_calls (w : World) (symbol : string) (t : Trace) :
  completions (snd (analysis_run w symbol t)) = [symbol] /\
  posts (snd (analysis_run w symbol t)) = [].
Proof.
  unfold analysis_run.
  destruct (chat_completions_create w _ symbol); split; reflexivity.
Qed.

Lemma webhook_run_calls (w : World) (members : list (string * json))
    (t : Trace) :
  completions (snd (webhook_run w members t)) = [] /\
  posts (snd (webhook_run w members t)) = [JDict members].
Proof. split; reflexivity. Qed.

(** One iteration, whatever the decoder: the service is called once,
    and the endpoint at most once, with the record the analysis
    returned. *)
Lemma symbol_run_calls (w : World) (symbol : string) (counts : Counts)
    (t : Trace) :
  let t1 := (t ++ [LogLine SYSTEM ("Processing " ++ symbol ++ "...")])%list in
  let new := snd (symbol_run w symbol counts t) in
  completions new = [symbol] /\
  (posts new = [] \/
   exists members,
     posts new = [JDict members] /\
     fst (analysis_run w symbol t1) = Some (JDict members)).
Proof.
  cbv zeta. unfold symbol_run.
  set (t1 := (t ++ [LogLine SYSTEM ("Processing " ++ symbol ++ "...")])%list).
  destruct (analysis_run_calls w symbol t1) as [Hc Hp].
  assert (Hskip : forall tail,
             completions tail = [] -> posts tail = [] ->
             completions (LogLine SYSTEM ("Processing " ++ symbol ++ "...")
                            :: snd (analysis_run w symbol t1) ++ tail)
             = [symbol] /\
             posts (LogLine SYSTEM ("Processing " ++ symbol ++ "...")
                      :: snd (analysis_run w symbol t1) ++ tail) = []).
  { intros tail H1 H2.
    change (?e :: ?l ++ tail)%list with ([e] ++ l ++ tail)%list.
    rewrite !completions_app, !posts_app, Hc, Hp, H1, H2. now split. }
  destruct (fst (analysis_run w symbol t1)) as [record |] eqn:Ea.
  - destruct (truthy record).
    + destruct record; cbn [snd];
        try (split; [| left];
             change (?e :: ?l)%list with ([e] ++ l)%list;
             rewrite ?completions_app, ?posts_app, ?Hc, ?Hp; reflexivity).
      split.
      * change (?e :: ?l ++ ?p ++ ?d)%list with ([e] ++ l ++ p ++ d)%list.
        rewrite !completions_app, Hc. reflexivity.
      * right. exists members. split; [| reflexivity].
        change (?e :: ?l ++ ?p ++ ?d)%list with ([e] ++ l ++ p ++ d)%list.
        rewrite !posts_app, Hp. reflexivity.
    + cbn [snd]. split; [| left]; now apply Hskip.
  - cbn [snd]. split; [| left]; now apply Hskip.
Qed.

(** One iteration, with a decoder of objects: exactly one counter
    grows by one. *)
Lemma symbol_run_counts (w : World) (symbol : string) (s f : Z)
    (t : Trace) :
  decodes_objects w ->
  fst (symbol_run w symbol (s, f) t) = inl (s + 1, f) \/
  fst (symbol_run w symbol (s, f) t) = inl (s, f + 1).
Proof.
  intros Hw. unfold symbol_run.
  set (t1 := (t ++ [LogLine SYSTEM ("Processing " ++ symbol ++ "...")])%list).
  destruct (fst (analysis_run w symbol t1)) as [record |] eqn:Ea.
  - apply (analysis_valid _ _ _ _ Hw) in Ea.
    rewrite (has_keys_truthy _ Ea). destruct Ea as (members & -> & _).
    cbn [fst snd webhook_run].
    match goal with |- context [webhook_ok ?r] => destruct (webhook_ok r) end;
      auto.
  - now right.
Qed.

End LoopFacts.

(** ** The loop and the run *)

Module MainFacts.
Import RunFacts DriverFacts ValidationFacts LoopFacts.

Lemma published_app (a b : list Event) :
  published (a ++ b) = published a + published b.
Proof. unfold published. rewrite filter_app, length_app. lia. Qed.

Lemma published_analysis_run (w : World) (symbol : string) (t : Trace) :
  published (snd (analysis_run w symbol t)) = 0.
Proof.
  unfold analysis_run.
  destruct (chat_completions_create w _ symbol) as [content | e].
  - unfold analysis_of_content.
    destruct (json_boundaries _) as [js |]; [| reflexivity].
    destruct (json_loads w js) as [v | e]; [| destruct e; reflexivity].
    destruct (validate required_fields v) as [| f | e];
      [reflexivity | reflexivity | destruct e; reflexivity].
  - destruct e; reflexivity.
Qed.

Lemma published_webhook_run (w : World) (members : list (string * json))
    (t : Trace) :
  published (snd (webhook_run w members t)) =
  if fst (webhook_run w members t) then 1 else 0.
Proof.
  unfold webhook_run. cbn [fst snd].
  match goal with |- context [webhook_ok ?r] => destruct r as [code | e] end.
  - cbn [webhook_ok webhook_line]. destruct (code =? 200); reflexivity.
  - destruct e; reflexivity.
Qed.

Lemma symbol_run_published (w : World) (symbol : string) (s f : Z)
    (t : Trace) :
  decodes_objects w ->
  exists s' f',
    fst (symbol_run w symbol (s, f) t) = inl (s', f') /\
    s' = s + published (snd (symbol_run w symbol (s, f) t)) /\
    s' + f' = s + f + 1.
Proof.
  intros Hw. unfold symbol_run.
  set (processing := LogLine SYSTEM ("Processing " ++ symbol ++ "...")).
  set (t1 := (t ++ [processing])%list).
  pose proof (published_analysis_run w symbol t1) as Hpa.
  assert (Hskip :
            published (processing :: snd (analysis_run w symbol t1)
                       ++ [LogLine (JString symbol)
                             ("⚠️  Skipping " ++ symbol ++ " - analysis failed");
                           LogLine SYSTEM (PyStr.repeat "-" 60)]) = 0).
  { change (?e :: ?l ++ ?d)%list with ([e] ++ l ++ d)%list.
    rewrite !published_app, Hpa. reflexivity. }
  destruct (fst (analysis_run w symbol t1)) as [record |] eqn:Ea.
  - apply (analysis_valid _ _ _ _ Hw) in Ea.
    rewrite (has_keys_truthy _ Ea). destruct Ea as (members & -> & _).
    cbn [fst snd].
    change (?e :: ?l ++ ?p ++ ?d)%list with ([e] ++ l ++ p ++ d)%list.
    rewrite !published_app, Hpa, published_webhook_run.
    destruct (fst (webhook_run w members _));
      eexists; eexists; (split; [reflexivity |]);
      change (published [processing]) with 0;
      change (published [LogLine SYSTEM (PyStr.repeat "-" 60)]) with 0; lia.
  - cbn [fst snd]. rewrite Hskip. exists s, (f + 1). repeat split; lia.
Qed.

(** The loop, with a decoder of objects. *)
Lemma for_symbols_spec (w : World) (symbols : list string) :
  decodes_objects w ->
  forall s f t,
  exists s' f' new,
    for_symbols w symbols (s, f) t = (inl (s', f'), (t ++ new)%list) /\
    s' = s + published new /\
    f <= f' /\
    s' + f' = s + f + Z.of_nat (List.length symbols) /\
    completions new = symbols.
Proof.
  intros Hw. induction symbols as [| symbol rest IH]; intros s f t.
  - exists s, f, []. cbn [for_symbols]. unfold ret.
    rewrite app_nil_r. change (published []) with 0.
    cbn [List.length]. repeat split; lia.
  - cbn [for_symbols]. unfold bind. rewrite process_symbol_eq.
    destruct (symbol_run_published w symbol s f t Hw)
      as (s1 & f1 & E1 & Hs1 & Hsum1).
    destruct (symbol_run_calls w symbol (s, f) t) as [Hc1 _].
    assert (Hf1 : f <= f1).
    { destruct (symbol_run_counts w symbol s f t Hw) as [E | E];
        rewrite E in E1; injection E1 as <- <-; lia. }
    rewrite E1.
    destruct (IH s1 f1 (t ++ snd (symbol_run w symbol (s, f) t))%list)
      as (s2 & f2 & new & E2 & Hs2 & Hf2 & Hsum2 & Hc2).
    exists s2, f2, (snd (symbol_run w symbol (s, f) t) ++ new)%list.
    rewrite E2, app_assoc, published_app, completions_app, Hc1, Hc2.
    repeat split; try reflexivity; cbn [List.length]; lia.
Qed.

Lemma published_nonneg (t : list Event) : 0 <= published t.
Proof. unfold published. lia. Qed.

(** The loop, whatever the decoder: what is posted is a record that
    the analysis validated. *)
Lemma for_symbols_posts (w : World) (symbols : list string) :
  forall counts t,
  exists new,
    snd (for_symbols w symbols counts t) = (t ++ new)%list /\
    Forall (has_keys required_fields) (posts new).
Proof.
  induction symbols as [| symbol rest IH]; intros counts t.
  - exists []. cbn [for_symbols]. unfold ret. cbn [snd].
    rewrite app_nil_r. split; [reflexivity | constructor].
  - cbn [for_symbols]. unfold bind. rewrite process_symbol_eq.
    destruct (symbol_run_calls w symbol counts t) as [_ Hp].
    assert (Hvalid : Forall (has_keys required_fields)
                       (posts (snd (symbol_run w symbol counts t)))).
    { destruct Hp as [-> | (members & -> & Ea)]; [constructor |].
      constructor; [| constructor].
      apply analysis_some in Ea. destruct Ea as (js & _ & _ & Hval).
      exists members. split; [reflexivity |]. now apply validate_dict_valid. }
    destruct (fst (symbol_run w symbol counts t)) as [counts' | e].
    + destruct (IH counts' (t ++ snd (symbol_run w symbol counts t))%list)
        as (new & E & Hnew).
      exists (snd (symbol_run w symbol counts t) ++ new)%list.
      rewrite E, app_assoc, posts_app. split; [reflexivity |].
      apply Forall_app. now split.
    + exists (snd (symbol_run w symbol counts t)). cbn [snd].
      split; [reflexivity | assumption].
Qed.

Lemma main_with_credential (w : World) (counts : Counts) (t : Trace) :
  env_missing w "PERPLEXITY_API_KEY" = false ->
  for_symbols w SYMBOLS (0, 0) banner = (inl counts, t) ->
  main w [] =
  ((if snd counts =? 4 then inr (SystemExit 1) else inl tt),
   (t ++ summary 4 counts)%list).
Proof.
  intros Hkey Hloop. unfold main, run_symbols. step. rewrite Hkey.
  change ([] ++ _ ++ _ ++ _)%list with banner. cbn [app].
  change [LogLine SYSTEM (PyStr.repeat "=" 60);
          LogLine SYSTEM "🚀 FUTFW HOURLY ANALYSIS STARTED";
          LogLine SYSTEM (PyStr.repeat "=" 60)] with banner.
  rewrite Hloop. destruct counts as [s f]. cbn [fst snd].
  change (Z.of_nat (List.length SYMBOLS)) with 4.
  unfold summary. cbn [fst snd].
  destruct (f =? 4); rewrite <- !app_assoc; reflexivity.
Qed.

Lemma main_without_credential (w : World) :
  env_missing w "PERPLEXITY_API_KEY" = true ->
  main w [] =
  (inr (SystemExit 1),
   (banner
    ++ [LogLine SYSTEM
          "✗ ERROR: PERPLEXITY_API_KEY environment variable not set"])%list).
Proof. intros Hkey. unfold main. step. now rewrite Hkey. Qed.

End MainFacts.

Module MoreFacts.
Import RunFacts DriverFacts ValidationFacts LoopFacts MainFacts.

Lemma validate_valid_all (fields : list string) (v : json) :
  validate fields v = Valid ->
  forall field, In field fields -> py_in field v = inl true.
Proof.
  induction fields as [| f rest IH]; cbn [validate]; [intros _ g [] |].
  destruct (py_in f v) as [[|] | e] eqn:E; try discriminate.
  intros H g [<- | Hg]; auto.
Qed.

Lemma published_banner : published banner = 0.
Proof. reflexivity. Qed.

Lemma published_summary (total : nat) (counts : Counts) :
  published (summary total counts) = 0.
Proof. reflexivity. Qed.

(** The trace of [main], whatever the decoder. *)
Lemma main_posts (w : World) :
  exists new,
    posts (snd (main w [])) = posts new /\
    (env_missing w "PERPLEXITY_API_KEY" = false ->
     snd (for_symbols w SYMBOLS (0, 0) banner) = (banner ++ new)%list) /\
    (env_missing w "PERPLEXITY_API_KEY" = true -> new = []).
Proof.
  destruct (env_missing w "PERPLEXITY_API_KEY") eqn:Hkey.
  - exists []. rewrite (main_without_credential w Hkey).
    repeat split; try reflexivity; discriminate.
  - destruct (for_symbols_posts w SYMBOLS (0, 0) banner) as (new & E & _).
    exists new. split; [| split; [intros _; exact E | discriminate]].
    destruct (for_symbols w SYMBOLS (0, 0) banner) as [[counts | e] t] eqn:El.
    + rewrite (main_with_credential w counts t Hkey El).
      cbn [snd] in *. subst t. rewrite !posts_app. cbn. now rewrite app_nil_r.
    + unfold main, run_symbols. RunFacts.step. rewrite Hkey.
      change ([] ++ _ ++ _ ++ _)%list with banner. cbn [app].
      change [LogLine SYSTEM (PyStr.repeat "=" 60);
              LogLine SYSTEM "🚀 FUTFW HOURLY ANALYSIS STARTED";
              LogLine SYSTEM (PyStr.repeat "=" 60)] with banner.
      rewrite El. cbn [snd] in *. subst t. rewrite posts_app. reflexivity.
Qed.

End MoreFacts.

(** ** The reference decoder *)

Module DecoderFacts.
Import Decoder.

Lemma value_object (fuel : nat) (rest : string) (v : json) (tail : string) :
  value fuel (String "{" rest) = Some (v, tail) ->
  exists members, v = JDict members.
Proof.
  destruct fuel as [| fuel]; [discriminate |]. cbn [value].
  destruct (skip_ws rest) as [| c s] eqn:E.
  - destruct (members fuel "") as [[kvs r] |]; [| discriminate].
    intros [= <- _]. eauto.
  - destruct c as [[] [] [] [] [] [] [] []];
      first [ intros [= <- _]; eauto
            | destruct (members fuel _) as [[kvs r] |]; [| discriminate];
              intros [= <- _]; eauto ].
Qed.

Lemma loads_objects (json_str : string) (v : json) :
  loads json_str = inl v ->
  json_str = "" \/ (exists rest, json_str = String "{" rest) ->
  exists members, v = JDict members.
Proof.
  intros Hl [-> | [rest ->]]; [discriminate |].
  unfold loads in Hl. cbn [skip_ws is_ws] in Hl.
  change (is_ws "{") with false in Hl. cbv iota in Hl.
  destruct (value _ (String "{" rest)) as [[v' tail] |] eqn:E;
    [| discriminate].
  apply value_object in E. destruct E as [members ->].
  destruct (skip_ws tail); [| discriminate].
  injection Hl as <-. eauto.
Qed.

Lemma demo_decodes_objects (key : option string)
    (reply : string -> string + exception) (status : Z + exception) :
  decodes_objects (Demo.world key reply status).
Proof. intros js v. apply loads_objects. Qed.

End DecoderFacts.

Import PyStrFacts ExtractionFacts RunFacts DriverFacts ValidationFacts
       LoopFacts MainFacts MoreFacts DecoderFacts.

(** * Examples *)

Example find_fence : PyStr.find "ab```json{}```" "```json" 0 = 2.
Proof. reflexivity. Qed.

Example find_closing_fence : PyStr.find "ab```json{}```" "```" 9 = 11.
Proof. reflexivity. Qed.

Example find_no_closing_fence : PyStr.find "ab```json{}" "```" 9 = -1.
Proof. reflexivity. Qed.

Example rfind_brace : PyStr.rfind "{a}{b}x" "}" = 5.
Proof. reflexivity. Qed.

Example slice_to_minus_one : PyStr.slice "abcdef" 2 (-1) = "cde".
Proof. reflexivity. Qed.

Example slice_reversed : PyStr.slice "abcdef" 4 2 = "".
Proof. reflexivity. Qed.

Example strip_both_ends :
  PyStr.strip ("  a b" ++ Demo.nl ++ " ") = "a b".
Proof. reflexivity. Qed.

Example loads_record : Decoder.loads (Demo.record_text "X") = inl (Demo.record "X").
Proof. vm_compute. reflexivity. Qed.

Example loads_nested :
  Decoder.loads "[[[1]],[2,[3,[4]]], {}]"
  = inl (JList [JList [JList [JInt 1]];
                JList [JInt 2; JList [JInt 3; JList [JInt 4]]];
                JDict []]).
Proof. vm_compute. reflexivity. Qed.

Example loads_empty : Decoder.loads "" = inr (JSONDecodeError "Expecting value").
Proof. reflexivity. Qed.

(** A fenced answer between prose: the fenced record is decoded. *)
Example analysis_of_fenced_answer :
  run_futfw_analysis
    (Demo.world (Some "key") (fun _ => inl Demo.fenced_text) (inl 200)) "X" []
  = (inl (Some (Demo.record "X")),
     [LogLine (JString "X") "Starting analysis...";
      ChatCompletion "X";
      LogLine (JString "X") "Received response from Perplexity AI";
      LogLine (JString "X") "✓ Analysis completed successfully"]).
Proof. vm_compute. reflexivity. Qed.

(** A bare record: extraction succeeds and validation passes. *)
Example analysis_of_bare_answer :
  fst (run_futfw_analysis
         (Demo.world (Some "key") (fun _ => inl (Demo.record_text "X"))
            (inl 200)) "X" [])
  = inl (Some (Demo.record "X")).
Proof. vm_compute. reflexivity. Qed.

(** A record without [take_profit]: the missing key is printed and
    nothing is returned. *)
Example analysis_without_take_profit :
  run_futfw_analysis
    (Demo.world (Some "key") (fun _ => inl Demo.without_take_profit)
       (inl 200)) "X" []
  = (inl None,
     [LogLine (JString "X") "Starting analysis...";
      ChatCompletion "X";
      LogLine (JString "X") "Received response from Perplexity AI";
      LogLine (JString "X") "Missing required field: take_profit"]).
Proof. vm_compute. reflexivity. Qed.

(** An answer without an opening brace. *)
Example analysis_without_braces :
  run_futfw_analysis
    (Demo.world (Some "key") (fun _ => inl "I cannot help with that.")
       (inl 200)) "X" []
  = (inl None,
     [LogLine (JString "X") "Starting analysis...";
      ChatCompletion "X";
      LogLine (JString "X") "Received response from Perplexity AI";
      LogLine (JString "X") "✗ No valid JSON found in response"]).
Proof. vm_compute. reflexivity. Qed.

(** A closing brace before the only opening one: the boundaries are
    found, the payload is empty, and the decoder refuses it. *)
Example analysis_of_reversed_braces :
  json_boundaries "} {" = Some "" /\
  run_futfw_analysis
    (Demo.world (Some "key") (fun _ => inl "} {") (inl 200)) "X" []
  = (inl None,
     [LogLine (JString "X") "Starting analysis...";
      ChatCompletion "X";
      LogLine (JString "X") "Received response from Perplexity AI";
      LogLine (JString "X") "✗ JSON parsing error: Expecting value"]).
Proof. split; vm_compute; reflexivity. Qed.

(** A fence that is never closed loses the closing brace of the record
    with the last character of the text. *)
Example analysis_of_unclosed_fence :
  run_futfw_analysis
    (Demo.world (Some "key") (fun _ => inl Demo.unclosed_text) (inl 200))
    "X" []
  = (inl None,
     [LogLine (JString "X") "Starting analysis...";
      ChatCompletion "X";
      LogLine (JString "X") "Received response from Perplexity AI";
      LogLine (JString "X") "✗ No valid JSON found in response"]).
Proof. vm_compute. reflexivity. Qed.

Example publish_status_500 :
  send_to_webhook (Demo.world (Some "key") (fun _ => inl "") (inl 500))
    (Demo.record "X") []
  = (inl false,
     [LogLine (JString "X") "Sending to dashboard...";
      HttpPost WEBHOOK_URL webhook_headers (Demo.record "X") 30;
      LogLine (JString "X") "✗ Webhook error: HTTP 500"]).
Proof. vm_compute. reflexivity. Qed.

Example publish_status_201 :
  fst (send_to_webhook (Demo.world (Some "key") (fun _ => inl "") (inl 201))
         (Demo.record "X") [])
  = inl false.
Proof. vm_compute. reflexivity. Qed.

Example publish_timeout :
  send_to_webhook
    (Demo.world (Some "key") (fun _ => inl "")
       (inr (Timeout "Read timed out.")))
    (Demo.record "X") []
  = (inl false,
     [LogLine (JString "X") "Sending to dashboard...";
      HttpPost WEBHOOK_URL webhook_headers (Demo.record "X") 30;
      LogLine (JString "X") "✗ Webhook timeout after 30 seconds"]).
Proof. vm_compute. reflexivity. Qed.

(** Three symbols of four succeed: the run ends normally. *)
Example run_with_one_failure :
  exit_status (main Demo.one_failure []) = 0 /\
  firstn 3 (rev (snd (main Demo.one_failure [])))
  = rev (summary 4 (3, 1)) /\
  completions (snd (main Demo.one_failure [])) = SYMBOLS /\
  posts (snd (main Demo.one_failure []))
  = [Demo.record "MYM1"; Demo.record "MNQ1"; Demo.record "XAUTUSDT.P"].
Proof. repeat split; vm_compute; reflexivity. Qed.

(** All four symbols fail, each in its own way: exit status 1. *)
Example run_with_four_failures :
  exit_status (main Demo.failing []) = 1 /\
  firstn 3 (rev (snd (main Demo.failing [])))
  = rev (summary 4 (0, 4)) /\
  completions (snd (main Demo.failing [])) = SYMBOLS /\
  posts (snd (main Demo.failing [])) = [Demo.record "MGC1"].
Proof. repeat split; vm_compute; reflexivity. Qed.

(** The assumption on the decoder is not idle: were [json.loads] to
    answer a list that holds the nine names, the list would pass the
    checks of lines 118-121 and [analysis.get] would end the run with
    an uncaught exception during the first symbol. *)
Example run_with_a_list_decoder :
  aborted (main Demo.list_decoder []) = true /\
  completions (snd (main Demo.list_decoder [])) = ["MGC1"] /\
  ~ decodes_objects Demo.list_decoder.
Proof.
  split; [vm_compute; reflexivity |]. split; [vm_compute; reflexivity |].
  intros H. destruct (H "" (JList (List.map JString required_fields)))
    as [members Hm]; [reflexivity | now left | discriminate].
Qed.

(** * The claims *)

(** C1, counterexample: the service answers the request for MGC1 with a
    complete record whose [symbol] member is OTHER; the analysis
    returns that record, so what it returns is neither [None] nor a
    record naming the requested symbol. *)
Lemma returned_symbol_is_not_checked :
  ~ round_trips Demo.other_symbol "MGC1" [].
Proof.
  unfold round_trips.
  assert (E : fst (run_futfw_analysis Demo.other_symbol "MGC1" [])
              = inl (Some (Demo.record "OTHER"))) by (vm_compute; reflexivity).
  rewrite E. intros [H | (record & [= <-] & H & _)]; discriminate.
Qed.

(** C1, amended: for every symbol, [run_futfw_analysis] returns [None]
    or a record holding all nine required keys; it never returns a
    record that misses one of them. The [symbol] member of the record is
    the one of the service's answer and is not compared with the
    requested symbol. *)
Theorem analysis_returns_complete_record_or_none (w : World) :
  decodes_objects w ->
  forall symbol t,
    fst (run_futfw_analysis w symbol t) = inl None \/
    exists record,
      fst (run_futfw_analysis w symbol t) = inl (Some record) /\
      has_keys required_fields record.
Proof.
  intros Hw symbol t. rewrite run_futfw_analysis_eq. cbn [fst].
  destruct (fst (analysis_run w symbol t)) as [record |] eqn:E; [| now left].
  right. exists record. split; [reflexivity |].
  now apply (analysis_valid w symbol t).
Qed.

Lemma analysis_returns_complete_record_or_none_witness :
  fst (run_futfw_analysis Demo.other_symbol "MGC1" []) = inl None \/
  exists record,
    fst (run_futfw_analysis Demo.other_symbol "MGC1" []) = inl (Some record) /\
    has_keys required_fields record.
Proof.
  apply (analysis_returns_complete_record_or_none Demo.other_symbol).
  apply demo_decodes_objects.
Defined.

(** C2: when [content] is what the description selects from the
    response text (the content of the first fence opened with a json
    tag up to the next closing fence; else the content of the first
    fence up to the next closing fence; else the text itself) and
    [payload] is the substring of [content] from its first opening brace
    to its last closing brace, or [None] when one of the two is absent,
    then lines 95-110 compute exactly [payload]; the analysis of a
    symbol fails when [payload] is [None], and hands [payload] to the
    decoder otherwise. *)
Theorem extraction_follows_priority_order
    (text content : string) (payload : option string) :
  Described.selected text content ->
  Described.candidate content payload ->
  json_boundaries (strip_fences text) = payload /\
  forall (w : World) (symbol : string) (t : Trace) (reply : string),
    chat_completions_create w
      (t ++ [LogLine (JString symbol) "Starting analysis..."])%list symbol
    = inl reply ->
    PyStr.strip reply = text ->
    match payload with
    | None => fst (run_futfw_analysis w symbol t) = inl None
    | Some json_str =>
        match json_loads w json_str with
        | inr _ => fst (run_futfw_analysis w symbol t) = inl None
        | inl v =>
            fst (run_futfw_analysis w symbol t) = inl None \/
            fst (run_futfw_analysis w symbol t) = inl (Some v)
        end
    end.
Proof.
  intros Hsel Hcand.
  assert (E : json_boundaries (strip_fences text) = payload).
  { rewrite (selected_strip_fences _ _ Hsel), json_boundaries_span.
    now apply candidate_span_eq. }
  split; [exact E |].
  intros w symbol t reply Hreply Htext.
  rewrite run_futfw_analysis_eq. cbn [fst]. unfold analysis_run.
  rewrite Hreply. cbn [fst]. unfold analysis_of_content. rewrite Htext, E.
  destruct payload as [js |]; [| reflexivity].
  destruct (json_loads w js) as [v | e]; [| reflexivity].
  destruct (validate required_fields v); cbn [fst]; auto.
Qed.

Lemma extraction_follows_priority_order_witness :
  json_boundaries (strip_fences Demo.fenced_text)
  = Some (Demo.record_text "X").
Proof.
  refine (proj1 (extraction_follows_priority_order
                   Demo.fenced_text
                   (Demo.nl ++ Demo.record_text "X" ++ Demo.nl)
                   (Some (Demo.record_text "X")) _ _)).
  - apply Described.selected_json.
    apply (Described.Fenced _ _ _ "prefix text "
             (Demo.nl ++ Demo.record_text "X" ++ Demo.nl ++ "``` suffix")
             " suffix").
    + reflexivity.
    + apply find_first_some. reflexivity.
    + reflexivity.
    + apply find_first_some. reflexivity.
  - refine (Described.candidate_span
              (Demo.nl ++ Demo.record_text "X" ++ Demo.nl) 1 174 _ _).
    + apply find_first_some. reflexivity.
    + apply find_last_some. reflexivity.
Defined.

(** C10: when the text holds an opening fence (the first json-tagged
    one, or the first fence when none is json-tagged) and no closing
    fence after it, lines 96-103 do not fail: they yield the text from
    just after the opening tag up to, and excluding, the last character
    of the text, stripped; and the boundaries found in the result are
    those of that truncated text. *)
Theorem unclosed_fence_drops_last_character (text : string) (start : nat) :
  Described.unclosed "```json" text start \/
  (~ Described.occurs "```json" text /\ Described.unclosed "```" text start) ->
  let truncated := substring start (String.length text - 1 - start) text in
  strip_fences text = PyStr.strip truncated /\
  json_boundaries (strip_fences text) = json_boundaries truncated.
Proof.
  intros H. cbv zeta.
  assert (E : strip_fences text
              = PyStr.strip
                  (substring start (String.length text - 1 - start) text)).
  { destruct H as [H | [Hj H]].
    - now apply strip_fences_unclosed_json.
    - now apply strip_fences_unclosed_fence. }
  split; [exact E |]. rewrite E. apply json_boundaries_strip.
Qed.

Lemma unclosed_fence_drops_last_character_witness :
  strip_fences Demo.unclosed_text = "{" ++ Demo.nine_members "X" /\
  json_boundaries (strip_fences Demo.unclosed_text) = None.
Proof.
  refine (unclosed_fence_drops_last_character Demo.unclosed_text 7 _).
  left. apply (Described.Unclosed _ _ _ "" (Demo.record_text "X")).
  - reflexivity.
  - apply find_first_some. reflexivity.
  - reflexivity.
  - apply find_first_none. reflexivity.
Defined.

(** C4: a decoded dict is accepted, and returned whole, if and only if
    the nine required keys are among its keys, of which [entry_signal]
    is not one; otherwise the validation prints which key is missing, a
    required key that the dict does not have, and returns [None]. *)
Theorem validation_is_presence_of_nine_keys
    (members : list (string * json)) (symbol : string) (t : Trace) :
  let nine := ["symbol"; "trend_1h"; "trend_15m"; "current_price";
               "entry_price"; "stop_loss"; "take_profit";
               "support_levels"; "resistance_levels"] in
  let keys := map fst members in
  let record := JDict members in
  let result := check_fields required_fields record symbol t in
  (fst result = inl (Some record) <-> forall key, In key nine -> In key keys)
  /\ (fst result = inl (Some record) \/
      exists field,
        In field nine /\ ~ In field keys /\
        result =
          (inl None,
           (t ++ [LogLine (JString symbol)
                    ("Missing required field: " ++ field)])%list))
  /\ ~ In "entry_signal" nine.
Proof.
  cbv zeta. rewrite check_fields_validate.
  pose proof (validate_dict required_fields members) as H.
  pose proof (validate_dict_valid required_fields members) as Hv.
  change required_fields with
    ["symbol"; "trend_1h"; "trend_15m"; "current_price";
     "entry_price"; "stop_loss"; "take_profit";
     "support_levels"; "resistance_levels"] in *.
  split; [| split].
  - rewrite <- Hv.
    destruct (validate _ (JDict members)); cbn [fst];
      split; intros E; try reflexivity; discriminate.
  - destruct (validate _ (JDict members)) as [| field | e].
    + now left.
    + right. exists field. destruct H as [H1 H2]. now repeat split.
    + destruct H.
  - cbn [In]. intros H'. repeat destruct H' as [H' | H']; try discriminate.
    exact H'.
Qed.

(** C5: [send_to_webhook] posts the record once, with a timeout of 30,
    and returns [True] if and only if the status code of the response
    is 200; with any other status code it returns [False] and prints
    the code; on a timeout it returns [False] and prints a line of its
    own, which no line printed for another transport error can equal. *)
Theorem publish_succeeds_on_200_only
    (w : World) (members : list (string * json)) (t : Trace) :
  let record := JDict members in
  exists (symbol : json) (line : string),
    let sending := LogLine symbol "Sending to dashboard..." in
    let response := requests_post w (t ++ [sending])%list record in
    py_get record "symbol" (JString "UNKNOWN") = inl symbol /\
    snd (send_to_webhook w record t)
    = (t ++ [sending;
             HttpPost WEBHOOK_URL
               [("Content-Type", "application/json");
                ("x-api-key", WEBHOOK_API_KEY)] record 30;
             LogLine symbol line])%list /\
    (fst (send_to_webhook w record t) = inl true <-> response = inl 200) /\
    (fst (send_to_webhook w record t) = inl true \/
     fst (send_to_webhook w record t) = inl false) /\
    (forall code, response = inl code -> code <> 200 ->
       line = "✗ Webhook error: HTTP " ++ PyStr.of_int code) /\
    (forall msg, response = inr (Timeout msg) ->
       line = "✗ Webhook timeout after 30 seconds") /\
    (forall e, response = inr e -> (forall msg, e <> Timeout msg) ->
       line = "✗ Webhook error: " ++ str_of_exception e) /\
    (forall tail, "✗ Webhook timeout after 30 seconds"
                  <> "✗ Webhook error: " ++ tail).
Proof.
  cbv zeta. exists (symbol_of members).
  exists (webhook_line
            (requests_post w
               (t ++ [LogLine (symbol_of members) "Sending to dashboard..."])%list
               (JDict members))).
  rewrite send_to_webhook_dict. unfold webhook_run. cbn [fst snd].
  assert (Hlines : forall tail, "✗ Webhook timeout after 30 seconds"
                                <> "✗ Webhook error: " ++ tail)
    by (intros tail H; cbn in H; discriminate).
  split; [unfold py_get, symbol_of; now destruct (List.find _ members) |].
  split; [reflexivity |].
  destruct (requests_post w _ (JDict members)) as [code | e];
    cbn [webhook_ok webhook_line].
  - split; [| split; [| split; [| split; [| split]]]].
    + split.
      * intros [= E]. apply Z.eqb_eq in E. now subst.
      * intros [= ->]. reflexivity.
    + destruct (code =? 200); auto.
    + intros c [= <-] Hc. apply Z.eqb_neq in Hc. now rewrite Hc.
    + discriminate.
    + discriminate.
    + exact Hlines.
  - split; [| split; [| split; [| split; [| split]]]].
    + split; discriminate.
    + now right.
    + discriminate.
    + intros msg [= ->]. reflexivity.
    + intros e' [= <-] He. destruct e; try reflexivity. now destruct (He msg).
    + exact Hlines.
Qed.

(** C6: when PERPLEXITY_API_KEY is absent from the environment, [main]
    exits with status 1 without calling the service or the endpoint,
    and every line it has printed is a SYSTEM line in which no symbol of
    [SYMBOLS] occurs. *)
Theorem missing_credential_stops_the_run (w : World) :
  environ_get w "PERPLEXITY_API_KEY" = None ->
  let run := main w [] in
  fst run = inr (SystemExit 1) /\
  exit_status run = 1 /\
  completions (snd run) = [] /\
  posts (snd run) = [] /\
  Forall (fun e =>
            exists message,
              e = LogLine SYSTEM message /\
              forall symbol, In symbol SYMBOLS ->
                             PyStr.contains symbol message = false)
         (snd run).
Proof.
  intros Hkey. cbv zeta.
  rewrite main_without_credential by (unfold env_missing; now rewrite Hkey).
  repeat split.
  repeat constructor;
    (eexists; split; [reflexivity |];
     intros symbol Hs; cbn [SYMBOLS In] in Hs;
     repeat destruct Hs as [<- | Hs]; try (vm_compute; reflexivity);
     destruct Hs).
Qed.

Lemma missing_credential_stops_the_run_witness :
  let run := main (Demo.world None (fun _ => inl "") (inl 200)) [] in
  fst run = inr (SystemExit 1) /\
  exit_status run = 1 /\
  completions (snd run) = [] /\
  posts (snd run) = [] /\
  Forall (fun e =>
            exists message,
              e = LogLine SYSTEM message /\
              forall symbol, In symbol SYMBOLS ->
                             PyStr.contains symbol message = false)
         (snd run).
Proof.
  apply (missing_credential_stops_the_run
           (Demo.world None (fun _ => inl "") (inl 200))).
  reflexivity.
Defined.

(** C9: each iteration of the loop of [main] adds one to exactly one of
    the two counters, so after the loop their sum is the number of
    symbols, and neither is negative. *)
Theorem each_symbol_counts_once (w : World) :
  decodes_objects w ->
  (forall symbol success_count failure_count t,
     fst (process_symbol w symbol (success_count, failure_count) t)
     = inl (success_count + 1, failure_count) \/
     fst (process_symbol w symbol (success_count, failure_count) t)
     = inl (success_count, failure_count + 1)) /\
  (forall t, exists success_count failure_count,
     fst (for_symbols w SYMBOLS (0, 0) t)
     = inl (success_count, failure_count) /\
     success_count + failure_count = Z.of_nat (List.length SYMBOLS) /\
     0 <= success_count /\ 0 <= failure_count).
Proof.
  intros Hw. split.
  - intros symbol s f t. rewrite process_symbol_eq. cbn [fst].
    now apply symbol_run_counts.
  - intros t.
    destruct (for_symbols_spec w SYMBOLS Hw 0 0 t)
      as (s & f & new & E & Hs & Hf & Hsum & _).
    exists s, f. rewrite E. pose proof (published_nonneg new).
    repeat split; try reflexivity; lia.
Qed.

Lemma each_symbol_counts_once_witness :
  exists success_count failure_count,
    fst (for_symbols Demo.failing SYMBOLS (0, 0) [])
    = inl (success_count, failure_count) /\
    success_count + failure_count = Z.of_nat (List.length SYMBOLS) /\
    0 <= success_count /\ 0 <= failure_count.
Proof.
  apply (proj2 (each_symbol_counts_once Demo.failing
                  (demo_decodes_objects _ _ _))).
Defined.

(** C3: when the credential is present, [main] exits with a non-zero
    status if and only if the success count is zero after the loop over
    all symbols, the success count being the number of successful
    publications; with at least one success the status is 0. *)
Theorem exit_status_is_nonzero_iff_no_success (w : World) :
  decodes_objects w ->
  env_missing w "PERPLEXITY_API_KEY" = false ->
  exists success_count failure_count t,
    for_symbols w SYMBOLS (0, 0) banner
    = (inl (success_count, failure_count), t) /\
    success_count = published (snd (main w [])) /\
    (exit_status (main w []) <> 0 <-> success_count = 0) /\
    (0 < success_count -> exit_status (main w []) = 0).
Proof.
  intros Hw Hkey.
  destruct (for_symbols_spec w SYMBOLS Hw 0 0 banner)
    as (s & f & new & E & Hs & Hf & Hsum & _).
  exists s, f, (banner ++ new)%list. split; [exact E |].
  rewrite (main_with_credential w (s, f) _ Hkey E).
  pose proof (published_nonneg new) as Hnew.
  change (Z.of_nat (List.length SYMBOLS)) with 4 in Hsum.
  cbn [fst snd]. unfold exit_status. cbn [fst].
  split; [| split].
  - rewrite !published_app, published_banner, published_summary. lia.
  - destruct (Z.eqb_spec f 4); split; intros H; try lia; congruence.
  - intros Hpos. destruct (Z.eqb_spec f 4); [lia | reflexivity].
Qed.

Lemma exit_status_is_nonzero_iff_no_success_witness :
  exists success_count failure_count t,
    for_symbols Demo.one_failure SYMBOLS (0, 0) banner
    = (inl (success_count, failure_count), t) /\
    success_count = published (snd (main Demo.one_failure [])) /\
    (exit_status (main Demo.one_failure []) <> 0 <-> success_count = 0) /\
    (0 < success_count -> exit_status (main Demo.one_failure []) = 0).
Proof.
  apply (exit_status_is_nonzero_iff_no_success Demo.one_failure).
  - apply demo_decodes_objects.
  - reflexivity.
Defined.

(** C7: an error of the service call, absent boundaries, a decoding
    error and a missing field each make [run_futfw_analysis] return
    [None] rather than raise; a timeout, a status other than 200 and a
    transport error each make [send_to_webhook] return [False] rather
    than raise; and [main] is never cut short: the service is asked
    about every symbol of [SYMBOLS], in order. *)
Theorem symbol_failures_do_not_abort (w : World) :
  decodes_objects w ->
  env_missing w "PERPLEXITY_API_KEY" = false ->
  (forall symbol t,
     let started :=
       (t ++ [LogLine (JString symbol) "Starting analysis..."])%list in
     let result := fst (run_futfw_analysis w symbol t) in
     (exists r, result = inl r) /\
     (forall e, chat_completions_create w started symbol = inr e ->
                result = inl None) /\
     (forall reply,
        chat_completions_create w started symbol = inl reply ->
        match json_boundaries (strip_fences (PyStr.strip reply)) with
        | None => result = inl None
        | Some json_str =>
            match json_loads w json_str with
            | inr _ => result = inl None
            | inl v =>
                (exists field, In field required_fields /\
                               py_in field v <> inl true) ->
                result = inl None
            end
        end)) /\
  (forall members t,
     let record := JDict members in
     let sending :=
       (t ++ [LogLine (symbol_of members) "Sending to dashboard..."])%list in
     (exists sent, fst (send_to_webhook w record t) = inl sent) /\
     (requests_post w sending record <> inl 200 ->
      fst (send_to_webhook w record t) = inl false)) /\
  aborted (main w []) = false /\
  completions (snd (main w [])) = SYMBOLS.
Proof.
  intros Hw Hkey. split; [| split; [| split]].
  - intros symbol t. cbv zeta. rewrite run_futfw_analysis_eq. cbn [fst].
    split; [eauto |]. unfold analysis_run. split.
    + intros e ->. reflexivity.
    + intros reply ->. cbn [fst]. unfold analysis_of_content.
      destruct (json_boundaries _) as [js |]; [| reflexivity].
      destruct (json_loads w js) as [v | e]; [| reflexivity].
      intros (field & Hin & Hne).
      destruct (validate required_fields v) eqn:Ev; try reflexivity.
      destruct Hne. now apply (validate_valid_all required_fields).
  - intros members t. cbv zeta. rewrite send_to_webhook_dict. cbn [fst].
    split; [eauto |]. unfold webhook_run. cbn [fst].
    destruct (requests_post w _ (JDict members)) as [code | e];
      [| reflexivity].
    intros Hne. cbn [webhook_ok].
    destruct (Z.eqb_spec code 200) as [-> | _]; [now destruct Hne | reflexivity].
  - destruct (for_symbols_spec w SYMBOLS Hw 0 0 banner)
      as (s & f & new & E & _).
    rewrite (main_with_credential w (s, f) _ Hkey E).
    unfold aborted. cbn [fst snd]. now destruct (f =? 4).
  - destruct (for_symbols_spec w SYMBOLS Hw 0 0 banner)
      as (s & f & new & E & _ & _ & _ & Hc).
    rewrite (main_with_credential w (s, f) _ Hkey E). cbn [snd].
    rewrite !completions_app, Hc. reflexivity.
Qed.

Lemma symbol_failures_do_not_abort_witness :
  aborted (main Demo.failing []) = false /\
  completions (snd (main Demo.failing [])) = SYMBOLS.
Proof.
  apply (symbol_failures_do_not_abort Demo.failing).
  - apply demo_decodes_objects.
  - reflexivity.
Defined.

(** C8: in an iteration of the loop the endpoint is called at most
    once, and only with the record the analysis of the symbol returned,
    which holds the nine required keys; when the analysis returned
    [None] the endpoint is not called. Hence every body posted during a
    run of [main] holds the nine required keys. *)
Theorem publisher_runs_only_on_valid_record
    (w : World) (symbol : string) (counts : Counts) (t : Trace) :
  let t1 := (t ++ [LogLine SYSTEM ("Processing " ++ symbol ++ "...")])%list in
  (exists new,
     snd (process_symbol w symbol counts t) = (t ++ new)%list /\
     (fst (run_futfw_analysis w symbol t1) = inl None -> posts new = []) /\
     (forall body,
        In body (posts new) ->
        posts new = [body] /\
        fst (run_futfw_analysis w symbol t1) = inl (Some body) /\
        has_keys required_fields body)) /\
  Forall (has_keys required_fields) (posts (snd (main w []))).
Proof.
  cbv zeta. split.
  - exists (snd (symbol_run w symbol counts t)).
    rewrite process_symbol_eq, run_futfw_analysis_eq. cbn [fst snd].
    split; [reflexivity |].
    destruct (symbol_run_calls w symbol counts t)
      as [_ [-> | (members & -> & Ea)]].
    + split; [reflexivity | intros body []].
    + rewrite Ea. split; [discriminate |].
      intros body [<- | []]. repeat split.
      apply analysis_some in Ea. destruct Ea as (js & _ & _ & Hval).
      exists members. split; [reflexivity |]. now apply validate_dict_valid.
  - destruct (main_posts w) as (new & -> & Hpresent & Habsent).
    destruct (env_missing w "PERPLEXITY_API_KEY").
    + rewrite Habsent by reflexivity. constructor.
    + destruct (for_symbols_posts w SYMBOLS (0, 0) banner) as (new' & E & H).
      rewrite Hpresent in E by reflexivity.
      apply app_inv_head in E. now subst.
Qed.

(** * Further properties *)

(** ** Lemmas *)

Module PayloadFacts.
Import PyStr Described PyStrFacts ExtractionFacts.

Lemma brace_free_cons (a : ascii) (s : string) :
  brace_free (String a s) = true ->
  a <> "{"%char /\ a <> "}"%char /\ brace_free s = true.
Proof.
  cbn [brace_free]. intros H.
  apply andb_prop in H. destruct H as [H Hs].
  apply andb_prop in H. destruct H as [H1 H2].
  repeat split; try assumption.
  - intros ->. discriminate.
  - intros ->. discriminate.
Qed.

Lemma span_prefix (pre s : string) :
  brace_free pre = true -> span (pre ++ s) = span s.
Proof.
  induction pre as [| a pre IH]; intros H; [reflexivity |].
  apply brace_free_cons in H. destruct H as (H1 & H2 & H).
  cbn [append]. rewrite span_cons by assumption. now apply IH.
Qed.

Lemma span_suffix (post s : string) :
  brace_free post = true -> span (s ++ post) = span s.
Proof.
  revert s; induction post as [| a post IH]; intros s H.
  - now rewrite append_empty_r.
  - apply brace_free_cons in H. destruct H as (H1 & H2 & H).
    replace (s ++ String a post) with ((s ++ String a "") ++ post)
      by (rewrite append_assoc; reflexivity).
    rewrite IH by assumption. now apply span_snoc.
Qed.

Lemma drop_drop_occurs (sub s : string) (n i : nat) :
  occurs_at sub s n -> (i <= n)%nat -> occurs_at sub (drop i s) (n - i).
Proof.
  revert n i; induction s as [| a s IH]; intros n i H Hi.
  - destruct i; simpl.
    + now rewrite Nat.sub_0_r.
    + pose proof (occurs_at_bound _ _ _ H) as Hb. simpl in Hb. lia.
  - destruct i as [| i]; simpl.
    + now rewrite Nat.sub_0_r.
    + destruct n as [| n]; [lia |]. apply occurs_at_succ in H.
      apply (IH n i); [assumption | lia].
Qed.

Lemma find_last_snoc_same (c : ascii) (s : string) :
  find_last (String c "") (s ++ String c "") = Some (String.length s).
Proof.
  induction s as [| a s IH].
  - cbn. destruct (ascii_dec c c); [reflexivity | congruence].
  - cbn [append find_last String.length]. now rewrite IH.
Qed.

(** The payload is empty, or runs from an opening to a closing brace. *)
Lemma span_shape (s payload : string) :
  span s = Some payload ->
  payload = "" \/ exists mid, payload = "{" ++ mid ++ "}".
Proof.
  unfold span.
  destruct (find_first "{" s) as [i |] eqn:Ei; [| discriminate].
  destruct (find_last "}" s) as [j |] eqn:Ej; [| discriminate].
  intros [= <-].
  apply find_first_some in Ei. destruct Ei as [Ei _].
  apply find_last_some in Ej. destruct Ej as [Ej _].
  destruct (Nat.le_gt_cases i j) as [Hij | Hij].
  - right.
    pose proof (drop_drop_occurs _ _ _ _ Ej Hij) as Hj.
    destruct (ValidationFacts.drop_occurs_at _ _ _ Ei) as [rest Hrest].
    destruct Hj as (pre & post & Hd & Hlen).
    rewrite Hd.
    replace (j + 1 - i)%nat with (String.length (pre ++ "}"))
      by (rewrite length_append; simpl; lia).
    rewrite <- append_assoc, take_append.
    destruct pre as [| a pre].
    + rewrite Hd in Hrest. discriminate.
    + rewrite Hd in Hrest. injection Hrest as -> _. now exists pre.
  - left. replace (j + 1 - i)%nat with O by lia. now destruct (drop i s).
Qed.

Lemma take_all (s : string) : take (String.length s) s = s.
Proof. induction s; simpl; congruence. Qed.

Lemma span_fixed (mid : string) :
  span ("{" ++ mid ++ "}") = Some ("{" ++ mid ++ "}").
Proof.
  cbn [append]. unfold span.
  assert (E1 : find_first "{" (String "{" (mid ++ "}")) = Some O).
  { cbn [find_first]. rewrite prefix_single.
    destruct (ascii_dec "{" "{"); [reflexivity | congruence]. }
  assert (E2 : find_last "}" (String "{" (mid ++ "}"))
               = Some (S (String.length mid))).
  { cbn [find_last]. now rewrite find_last_snoc_same. }
  rewrite E1, E2. f_equal. rewrite Nat.sub_0_r, drop_zero.
  replace (S (String.length mid) + 1)%nat
    with (String.length (String "{" (mid ++ "}")))
    by (cbn [String.length]; rewrite length_append; simpl; lia).
  apply take_all.
Qed.

End PayloadFacts.

Module ProseFacts.
Import PyStr Described PyStrFacts ExtractionFacts PayloadFacts.

Lemma lstrip_spaces (s : string) :
  exists w, s = w ++ lstrip s /\ all_space w = true.
Proof.
  induction s as [| a s (w & Hs & Hw)]; [now exists "" |].
  cbn [lstrip]. destruct (is_space a) eqn:Ha.
  - exists (String a w). cbn [append all_space]. rewrite Ha, Hw.
    split; [congruence | reflexivity].
  - now exists "".
Qed.

Lemma occurs_inside (sub l s r : string) :
  occurs sub s -> occurs sub (l ++ s ++ r).
Proof.
  intros (n & pre & post & -> & _).
  exists (String.length (l ++ pre)), (l ++ pre), (post ++ r).
  split; [| reflexivity]. now rewrite !append_assoc.
Qed.

Lemma occurs_strip (sub s : string) : occurs sub (strip s) -> occurs sub s.
Proof.
  intros H. unfold strip in H.
  destruct (rstrip_spaces s) as (r & Hr & _).
  destruct (lstrip_spaces (rstrip s)) as (l & Hl & _).
  rewrite Hr, Hl, append_assoc. now apply occurs_inside.
Qed.

Lemma contains_false (sub s : string) :
  contains sub s = false <-> ~ occurs sub s.
Proof.
  unfold contains. split.
  - destruct (find_first sub s) eqn:E; [discriminate |].
    intros _. now apply find_first_none.
  - intros H. now rewrite (not_occurs_find _ _ H).
Qed.

Lemma contains_strip (sub s : string) :
  contains sub s = false -> contains sub (strip s) = false.
Proof.
  rewrite !contains_false. intros H Hs. apply H. now apply occurs_strip.
Qed.

End ProseFacts.

Module FenceFacts.
Import PyStr Described PyStrFacts ExtractionFacts PayloadFacts ProseFacts.

Lemma contains_true (sub s : string) :
  contains sub s = true <-> occurs sub s.
Proof.
  unfold contains. split.
  - destruct (find_first sub s) as [n |] eqn:E; [| discriminate].
    intros _. exists n. now apply find_first_some.
  - intros H. destruct (find_first sub s) eqn:E; [reflexivity |].
    now destruct (find_first_none _ _ E).
Qed.

Lemma occurs_at_prefix (sub a b : string) (m : nat) :
  occurs_at sub a m -> occurs_at sub (a ++ b) m.
Proof.
  intros (pre & post & -> & Hm). exists pre, (post ++ b).
  split; [now rewrite !append_assoc | assumption].
Qed.

(** Between an opening fence and the next closing one there is no
    fence. *)
Lemma fenced_content_has_no_fence (tag text content : string) :
  fenced tag text content -> ~ occurs "```" content.
Proof.
  intros [pre rest post _ _ Hrest [_ Hmin]] [m Hm].
  pose proof (occurs_at_bound _ _ _ Hm) as Hb. simpl in Hb.
  apply (Hmin m); [lia |]. rewrite Hrest. now apply occurs_at_prefix.
Qed.

End FenceFacts.

Module ExitFacts.
Import RunFacts DriverFacts ValidationFacts LoopFacts MainFacts MoreFacts.

(** The loop ends with counters or with an exception, never with an
    exit. *)
Lemma for_symbols_never_exits (w : World) (symbols : list string) :
  forall counts t code,
    fst (for_symbols w symbols counts t) <> inr (SystemExit code).
Proof.
  induction symbols as [| symbol rest IH]; intros counts t code.
  - discriminate.
  - cbn [for_symbols]. unfold bind. rewrite process_symbol_eq.
    destruct (fst (symbol_run w symbol counts t)) as [counts' | e] eqn:E.
    + apply IH.
    + cbn [fst]. intros [= ->]. revert E. unfold symbol_run.
      destruct (fst (analysis_run w symbol _)) as [record |];
        [| discriminate].
      destruct (truthy record); [| discriminate].
      destruct record; discriminate.
Qed.

Lemma run_symbols_eq (w : World) (symbols : list string) (counts : Counts)
    (t t' : Trace) :
  for_symbols w symbols (0, 0) t = (inl counts, t') ->
  run_symbols w symbols t =
  ((if snd counts =? Z.of_nat (List.length symbols)
    then inr (SystemExit 1) else inl counts),
   (t' ++ summary (List.length symbols) counts)%list).
Proof.
  intros H. unfold run_symbols. step. rewrite H.
  destruct counts as [s f]. cbn [fst snd]. unfold summary. cbn [fst snd].
  destruct (f =? Z.of_nat (List.length symbols));
    rewrite <- !app_assoc; reflexivity.
Qed.

End ExitFacts.

Module PromptFacts.
Import PyStr Described PyStrFacts ProseFacts.

Lemma unlines_cons (l : string) (ls : list string) :
  unlines (l :: ls) = l ++ String "010" (unlines ls).
Proof. reflexivity. Qed.

Lemma length_unlines_cons (l : string) (ls : list string) :
  String.length (unlines (l :: ls))
  = (String.length l + 1 + String.length (unlines ls))%nat.
Proof. rewrite unlines_cons, length_append. simpl. lia. Qed.

Lemma length_q (s : string) :
  String.length (Decoder.q s) = (String.length s + 2)%nat.
Proof. unfold Decoder.q. cbn. rewrite length_append. simpl. lia. Qed.

Lemma length_prompt (symbol : string) :
  String.length (FUTFW_PROMPT_TEMPLATE symbol)
  = (1123 + 4 * String.length symbol)%nat.
Proof.
  unfold FUTFW_PROMPT_TEMPLATE.
  repeat rewrite length_unlines_cons.
  repeat rewrite length_append. repeat rewrite length_q.
  cbn [unlines]. simpl String.length. lia.
Qed.

Lemma append_same_length (a b c d : string) :
  a ++ c = b ++ d -> String.length a = String.length b -> a = b.
Proof.
  revert b; induction a as [| x a IH]; intros [| y b] H Hl;
    try discriminate; [reflexivity |].
  cbn in H. injection H as -> H. f_equal. apply (IH b); [assumption |].
  simpl in Hl. lia.
Qed.

Lemma occurs_append_r (sub a b : string) : occurs sub b -> occurs sub (a ++ b).
Proof.
  intros H. apply (occurs_inside sub a b "") in H.
  now rewrite append_empty_r in H.
Qed.

Lemma occurs_append_l (sub a b : string) : occurs sub a -> occurs sub (a ++ b).
Proof. intros H. now apply (occurs_inside sub "" a b) in H. Qed.

Lemma occurs_unlines (sub l : string) (ls : list string) :
  occurs sub l \/ occurs sub (unlines ls) -> occurs sub (unlines (l :: ls)).
Proof.
  rewrite unlines_cons. intros [H | H].
  - now apply occurs_append_l.
  - apply occurs_append_r.
    apply (occurs_inside sub (String "010" "") (unlines ls) "") in H.
    now rewrite append_empty_r in H.
Qed.

Lemma occurs_find (sub s : string) (n : nat) :
  find_first sub s = Some n -> occurs sub s.
Proof. intros H. exists n. now apply find_first_some. Qed.

End PromptFacts.

Import PayloadFacts ProseFacts FenceFacts ExitFacts PromptFacts.

(** ** The payload and its boundaries *)

(** X1: the payload found by lines 106-110 is empty (a closing brace
    before the only opening ones) or runs from an opening brace to a
    closing brace; in the latter case looking for the boundaries of the
    payload itself gives the payload back. *)
Theorem payload_runs_from_brace_to_brace (text payload : string) :
  json_boundaries text = Some payload ->
  payload = "" \/
  (exists mid, payload = "{" ++ mid ++ "}") /\
  json_boundaries payload = Some payload.
Proof.
  rewrite !json_boundaries_span. intros H.
  destruct (span_shape _ _ H) as [-> | [mid ->]]; [now left | right].
  split; [now exists mid |]. apply span_fixed.
Qed.

Lemma payload_runs_from_brace_to_brace_witness :
  "{b}{c}" = "" \/
  (exists mid, "{b}{c}" = "{" ++ mid ++ "}") /\
  json_boundaries "{b}{c}" = Some "{b}{c}".
Proof.
  apply (payload_runs_from_brace_to_brace "a{b}{c}d" "{b}{c}"). reflexivity.
Defined.

(** X2: text without braces before and after does not change what
    lines 106-110 find. *)
Theorem prose_without_braces_is_dropped (pre text post : string) :
  brace_free pre = true -> brace_free post = true ->
  json_boundaries (pre ++ text ++ post) = json_boundaries text.
Proof.
  intros Hpre Hpost. rewrite !json_boundaries_span.
  now rewrite span_prefix, span_suffix.
Qed.

Lemma prose_without_braces_is_dropped_witness :
  json_boundaries ("Here it is: " ++ Demo.record_text "X" ++ " Good luck!")
  = json_boundaries (Demo.record_text "X").
Proof.
  apply prose_without_braces_is_dropped; reflexivity.
Defined.

(** X3: when the answer holds no fence, and no brace outside one
    stretch that runs from an opening to a closing brace, lines 92-110
    hand exactly that stretch to the decoder, whatever whitespace and
    prose surround it. *)
Theorem object_in_prose_is_extracted (pre mid post : string) :
  brace_free pre = true -> brace_free post = true ->
  PyStr.contains "```" (pre ++ "{" ++ mid ++ "}" ++ post) = false ->
  json_boundaries
    (strip_fences (PyStr.strip (pre ++ "{" ++ mid ++ "}" ++ post)))
  = Some ("{" ++ mid ++ "}").
Proof.
  intros Hpre Hpost Hfence.
  apply contains_strip in Hfence. apply contains_false in Hfence.
  rewrite (strip_fences_verbatim _ Hfence), json_boundaries_strip.
  replace (pre ++ "{" ++ mid ++ "}" ++ post)
    with (pre ++ ("{" ++ mid ++ "}") ++ post)
    by (cbn [append]; now rewrite append_assoc).
  rewrite json_boundaries_span, span_prefix, span_suffix by assumption.
  apply span_fixed.
Qed.

Lemma object_in_prose_is_extracted_witness :
  json_boundaries
    (strip_fences (PyStr.strip ("  Sure: " ++ "{" ++ "a: {1}" ++ "}" ++ " ok ")))
  = Some ("{" ++ "a: {1}" ++ "}").
Proof.
  apply object_in_prose_is_extracted; reflexivity.
Defined.

(** X4: validation either accepts the dict, or stops at the first field
    of the list that is not a key of the dict: the fields before it are
    present, it is the only one printed, and [None] is returned. *)
Theorem first_missing_field_is_reported
    (fields : list string) (members : list (string * json))
    (symbol : string) (t : Trace) :
  let keys := map fst members in
  check_fields fields (JDict members) symbol t
  = (inl (Some (JDict members)),
     (t ++ [LogLine (JString symbol) "✓ Analysis completed successfully"])%list)
  \/
  exists before field after,
    fields = (before ++ field :: after)%list /\
    (forall f, In f before -> In f keys) /\
    ~ In field keys /\
    check_fields fields (JDict members) symbol t
    = (inl None,
       (t ++ [LogLine (JString symbol)
                ("Missing required field: " ++ field)])%list).
Proof.
  cbv zeta. rewrite check_fields_validate.
  induction fields as [| f rest IH]; cbn [validate py_in]; [now left |].
  destruct (existsb _ members) eqn:E.
  - apply key_present in E. destruct IH as [IH | IH].
    + left. destruct (validate rest (JDict members)); try discriminate.
      reflexivity.
    + right. destruct IH as (before & field & after & -> & Hb & Hf & Hr).
      exists (f :: before), field, after. repeat split; try assumption.
      intros g [<- | Hg]; auto.
  - right. exists [], f, rest. repeat split.
    + intros g [].
    + intros H. apply key_present in H. congruence.
Qed.

(** X5: lines 106-110 find no payload exactly when the text holds no
    opening brace or no closing brace, in whatever order the braces
    stand. *)
Theorem boundaries_missing_iff_a_brace_is_absent (text : string) :
  json_boundaries text = None <->
  PyStr.contains "{" text = false \/ PyStr.contains "}" text = false.
Proof.
  rewrite json_boundaries_span. unfold span, PyStr.contains.
  destruct (PyStr.find_first "{" text) as [i |] eqn:Ei.
  - destruct (PyStr.find_last "}" text) as [j |] eqn:Ej.
    + assert (Hc : PyStr.find_first "}" text <> None).
      { intros H. apply find_first_none in H. apply H.
        exists j. now apply find_last_some. }
      destruct (PyStr.find_first "}" text); [| congruence].
      split; [discriminate | intros [H | H]; discriminate].
    + apply find_last_none in Ej.
      rewrite (not_occurs_find _ _ Ej). split; auto.
  - split; auto.
Qed.

(** X6: when the fence chosen by lines 96-103 is closed, or the text
    holds no fence, the text they yield holds no fence, so that applying
    them again changes nothing. *)
Theorem stripped_text_holds_no_fence (text content : string) :
  Described.selected text content ->
  PyStr.contains "```" (strip_fences text) = false /\
  strip_fences (strip_fences text) = strip_fences text.
Proof.
  intros Hsel.
  assert (H : ~ Described.occurs "```" (strip_fences text)).
  { destruct Hsel as [c Hf | c Hj Hf | Hn].
    - rewrite (strip_fences_json _ _ Hf). intros Ho.
      apply occurs_strip in Ho.
      now apply (fenced_content_has_no_fence _ _ _ Hf).
    - rewrite (strip_fences_fence _ _ Hj Hf). intros Ho.
      apply occurs_strip in Ho.
      now apply (fenced_content_has_no_fence _ _ _ Hf).
    - now rewrite (strip_fences_verbatim _ Hn). }
  split; [now apply contains_false | now apply strip_fences_verbatim].
Qed.

Lemma stripped_text_holds_no_fence_witness :
  PyStr.contains "```" (strip_fences Demo.fenced_text) = false /\
  strip_fences (strip_fences Demo.fenced_text)
  = strip_fences Demo.fenced_text.
Proof.
  apply (stripped_text_holds_no_fence Demo.fenced_text
           (Demo.nl ++ Demo.record_text "X" ++ Demo.nl)).
  apply Described.selected_json.
  apply (Described.Fenced _ _ _ "prefix text "
           (Demo.nl ++ Demo.record_text "X" ++ Demo.nl ++ "``` suffix")
           " suffix").
  - reflexivity.
  - apply find_first_some. reflexivity.
  - reflexivity.
  - apply find_first_some. reflexivity.
Defined.

(** ** The analysis and the publication *)

(** X7: given anything but a dict ([None] for one), [send_to_webhook]
    raises before it prints or posts: [analysis.get] stands outside
    the [try], so no [False] is returned. *)
Theorem publish_of_non_dict_raises (w : World) (record : json) (t : Trace) :
  (forall members, record <> JDict members) ->
  exists e, send_to_webhook w record t = (inr (Exception e), t).
Proof.
  intros H. eexists. unfold send_to_webhook. step.
  destruct record; try reflexivity. now destruct (H members).
Qed.

Lemma publish_of_non_dict_raises_witness :
  exists e,
    send_to_webhook (Demo.world (Some "key") (fun _ => inl "") (inl 200))
      JNull []
    = (inr (Exception e), []).
Proof.
  apply publish_of_non_dict_raises. discriminate.
Defined.

(** X8: the lines of [send_to_webhook] carry the [symbol] member of the
    record posted, and UNKNOWN when the record has no such member; the
    record is posted all the same. *)
Theorem publish_is_logged_under_the_record_symbol
    (w : World) (members : list (string * json)) (t : Trace) :
  exists tag line,
    snd (send_to_webhook w (JDict members) t)
    = (t ++ [LogLine tag "Sending to dashboard...";
             HttpPost WEBHOOK_URL
               [("Content-Type", "application/json");
                ("x-api-key", WEBHOOK_API_KEY)] (JDict members) 30;
             LogLine tag line])%list /\
    (~ In "symbol" (map fst members) -> tag = JString "UNKNOWN") /\
    (In "symbol" (map fst members) -> In ("symbol", tag) members).
Proof.
  rewrite send_to_webhook_dict. unfold webhook_run. cbn [snd].
  eexists. eexists. split; [reflexivity |]. unfold symbol_of.
  destruct (List.find _ members) as [[k v] |] eqn:E.
  - apply find_some in E. destruct E as [Hin Hk]. cbn [fst snd] in *.
    apply String.eqb_eq in Hk. subst k. split; [| now intros _].
    intros H. destruct H. apply in_map_iff. now exists ("symbol", v).
  - split; [reflexivity |]. intros H. apply in_map_iff in H.
    destruct H as ([k v] & Hk & Hin). cbn [fst] in Hk. subst k.
    pose proof (find_none _ _ E _ Hin) as Hn. cbn [fst] in Hn.
    now rewrite String.eqb_refl in Hn.
Qed.

(** X9: an analysis prints its start, calls the service once, then
    prints one or two lines, all under the requested symbol; it never
    calls the endpoint, and it returns a record exactly when its last
    line is the line of success. *)
Theorem analysis_calls_the_service_once
    (w : World) (symbol : string) (t : Trace) :
  exists lines,
    snd (run_futfw_analysis w symbol t)
    = (t ++ LogLine (JString symbol) "Starting analysis..."
         :: ChatCompletion symbol
         :: map (LogLine (JString symbol)) lines)%list /\
    (1 <= List.length lines <= 2)%nat /\
    ((exists record, fst (run_futfw_analysis w symbol t) = inl (Some record))
     <-> last lines "" = "✓ Analysis completed successfully").
Proof.
  rewrite run_futfw_analysis_eq. cbn [fst snd]. unfold analysis_run.
  destruct (chat_completions_create w _ symbol) as [content | e].
  - exists ["Received response from Perplexity AI";
            snd (analysis_of_content w content)].
    split; [reflexivity |]. split; [simpl; lia |].
    cbn [fst snd last]. unfold analysis_of_content.
    destruct (json_boundaries _) as [js |].
    + destruct (json_loads w js) as [v | e].
      * destruct (validate required_fields v) as [| f | e]; cbn [fst snd].
        -- split; eauto.
        -- split; [intros [r H] | intros H]; discriminate.
        -- split; [intros [r H]; discriminate |].
           destruct e; cbn; intros H; discriminate.
      * cbn [fst snd]. split; [intros [r H]; discriminate |].
        destruct e; cbn; intros H; discriminate.
    + cbn [fst snd]. split; [intros [r H] | intros H]; discriminate.
  - exists [analysis_failure_line e].
    split; [reflexivity |]. split; [simpl; lia |].
    cbn [fst last]. split; [intros [r H]; discriminate |].
    destruct e; cbn; intros H; discriminate.
Qed.

(** ** The driver *)

(** X10: a PERPLEXITY_API_KEY set to the empty string is treated as
    missing: [main] prints the error and exits with status 1 before any
    symbol. *)
Theorem empty_credential_counts_as_missing (w : World) :
  environ_get w "PERPLEXITY_API_KEY" = Some "" ->
  main w [] =
  (inr (SystemExit 1),
   [LogLine SYSTEM (PyStr.repeat "=" 60);
    LogLine SYSTEM "🚀 FUTFW HOURLY ANALYSIS STARTED";
    LogLine SYSTEM (PyStr.repeat "=" 60);
    LogLine SYSTEM
      "✗ ERROR: PERPLEXITY_API_KEY environment variable not set"]).
Proof.
  intros H. apply main_without_credential. unfold env_missing. now rewrite H.
Qed.

Lemma empty_credential_counts_as_missing_witness :
  exit_status
    (main (Demo.world (Some "") (fun s => inl (Demo.record_text s)) (inl 200))
       []) = 1.
Proof.
  rewrite (empty_credential_counts_as_missing
             (Demo.world (Some "") (fun s => inl (Demo.record_text s))
                (inl 200)) eq_refl).
  reflexivity.
Defined.

(** X11: whatever the world answers, and whatever the decoder, the
    exit status of [main] is 0 or 1. *)
Theorem exit_status_is_zero_or_one (w : World) :
  exit_status (main w []) = 0 \/ exit_status (main w []) = 1.
Proof.
  destruct (env_missing w "PERPLEXITY_API_KEY") eqn:Hkey.
  - right. now rewrite (main_without_credential w Hkey).
  - destruct (for_symbols w SYMBOLS (0, 0) banner) as [[counts | e] t] eqn:El.
    + rewrite (main_with_credential w counts t Hkey El).
      unfold exit_status. cbn [fst]. destruct (snd counts =? 4); auto.
    + right. unfold main, run_symbols. step. rewrite Hkey.
      change ([] ++ _ ++ _ ++ _)%list with banner. cbn [app].
      change [LogLine SYSTEM (PyStr.repeat "=" 60);
              LogLine SYSTEM "🚀 FUTFW HOURLY ANALYSIS STARTED";
              LogLine SYSTEM (PyStr.repeat "=" 60)] with banner.
      rewrite El. unfold exit_status. cbn [fst].
      destruct e as [e | code]; [reflexivity |].
      destruct (for_symbols_never_exits w SYMBOLS (0, 0) banner code).
      now rewrite El.
Qed.

(** X12: over any list of symbols, started on any trace, the loop asks
    the service about each symbol once, in order, the success count is
    the number of successful publications, the counters sum to the
    length of the list, the summary prints them, and [sys.exit(1)] is
    reached exactly when the success count is 0, which includes the
    empty list. *)
Theorem run_over_any_symbol_list (w : World) (symbols : list string)
    (t : Trace) :
  decodes_objects w ->
  exists success_count failure_count new,
    for_symbols w symbols (0, 0) t
    = (inl (success_count, failure_count), (t ++ new)%list) /\
    completions new = symbols /\
    success_count = published new /\
    success_count + failure_count = Z.of_nat (List.length symbols) /\
    0 <= failure_count /\
    snd (run_symbols w symbols t)
    = (t ++ new
       ++ summary (List.length symbols) (success_count, failure_count))%list /\
    (fst (run_symbols w symbols t) = inr (SystemExit 1)
     <-> success_count = 0) /\
    (success_count <> 0 ->
     fst (run_symbols w symbols t) = inl (success_count, failure_count)).
Proof.
  intros Hw.
  destruct (for_symbols_spec w symbols Hw 0 0 t)
    as (s & f & new & E & Hs & Hf & Hsum & Hc).
  exists s, f, new. pose proof (published_nonneg new) as Hnew.
  rewrite (run_symbols_eq w symbols (s, f) t _ E). cbn [fst snd].
  repeat (split; [first [assumption | lia | now rewrite app_assoc] |]).
  split.
  - destruct (Z.eqb_spec f (Z.of_nat (List.length symbols)));
      split; intros H; try lia; try reflexivity; discriminate.
  - intros H.
    destruct (Z.eqb_spec f (Z.of_nat (List.length symbols)));
      [lia | reflexivity].
Qed.

Lemma run_over_any_symbol_list_witness :
  fst (run_symbols Demo.one_failure [] []) = inr (SystemExit 1) /\
  fst (run_symbols Demo.one_failure ["MGC1"; "ES1"] []) = inl (1, 1).
Proof.
  split.
  - destruct (run_over_any_symbol_list Demo.one_failure [] []
                (demo_decodes_objects _ _ _))
      as (s & f & new & E & _ & _ & _ & _ & _ & Hexit & _).
    apply Hexit. injection E as <- _. reflexivity.
  - reflexivity.
Defined.

(** X13: a symbol is counted as a success exactly when its analysis
    returned a record and the endpoint answered 200 to the post of that
    record. *)
Theorem success_is_record_published_with_200
    (w : World) (symbol : string) (success_count failure_count : Z)
    (t : Trace) :
  decodes_objects w ->
  let t1 := (t ++ [LogLine SYSTEM ("Processing " ++ symbol ++ "...")])%list in
  let analysis := run_futfw_analysis w symbol t1 in
  fst (process_symbol w symbol (success_count, failure_count) t)
  = inl (success_count + 1, failure_count)
  <->
  exists record tag,
    fst analysis = inl (Some record) /\
    py_get record "symbol" (JString "UNKNOWN") = inl tag /\
    requests_post w
      (snd analysis ++ [LogLine tag "Sending to dashboard..."])%list record
    = inl 200.
Proof.
  intros Hw. cbv zeta.
  rewrite process_symbol_eq, run_futfw_analysis_eq. cbn [fst snd].
  unfold symbol_run.
  set (processing := LogLine SYSTEM ("Processing " ++ symbol ++ "...")).
  set (t1 := (t ++ [processing])%list).
  destruct (fst (analysis_run w symbol t1)) as [record |] eqn:Ea.
  - pose proof (analysis_valid _ _ _ _ Hw Ea) as Hk.
    rewrite (has_keys_truthy _ Hk). destruct Hk as (members & -> & _).
    cbn [fst snd webhook_run].
    replace (t ++ processing :: snd (analysis_run w symbol t1))%list
      with (t1 ++ snd (analysis_run w symbol t1))%list
      by (unfold t1; rewrite <- app_assoc; reflexivity).
    assert (Hget : py_get (JDict members) "symbol" (JString "UNKNOWN")
                   = inl (symbol_of members))
      by (unfold py_get, symbol_of; now destruct (List.find _ members)).
    destruct (requests_post w _ (JDict members)) as [code | e] eqn:Er;
      cbn [webhook_ok].
    + destruct (Z.eqb_spec code 200) as [-> | Hne].
      * split; [intros _ | reflexivity].
        exists (JDict members), (symbol_of members). now repeat split.
      * split; [intros [= H]; lia |].
        intros (record & tag & [= <-] & Htag & Hpost).
        rewrite Hget in Htag. injection Htag as <-.
        rewrite Er in Hpost. congruence.
    + split; [intros [= H]; lia |].
      intros (record & tag & [= <-] & Htag & Hpost).
      rewrite Hget in Htag. injection Htag as <-.
      rewrite Er in Hpost. discriminate.
  - cbn [fst]. split; [intros [= H]; lia |].
    intros (record & tag & H & _). discriminate.
Qed.

Lemma success_is_record_published_with_200_witness :
  fst (process_symbol Demo.one_failure "MYM1" (0, 1) [])
  = inl (0 + 1, 1).
Proof.
  apply (success_is_record_published_with_200 Demo.one_failure "MYM1" 0 1 []
           (demo_decodes_objects _ _ _)).
  exists (Demo.record "MYM1"), (JString "MYM1").
  repeat split; vm_compute; reflexivity.
Defined.

(** ** The prompt *)

(** X14: the prompts of two distinct symbols differ. *)
Theorem prompts_of_distinct_symbols_differ (symbol1 symbol2 : string) :
  symbol1 <> symbol2 ->
  FUTFW_PROMPT_TEMPLATE symbol1 <> FUTFW_PROMPT_TEMPLATE symbol2.
Proof.
  intros Hne H. apply Hne.
  assert (Hl : String.length symbol1 = String.length symbol2).
  { apply (f_equal String.length) in H. rewrite !length_prompt in H. lia. }
  unfold FUTFW_PROMPT_TEMPLATE in H. rewrite !unlines_cons in H.
  cbn [append] in H. injection H as H.
  rewrite !append_assoc in H.
  apply (append_same_length _ _ _ _ H Hl).
Qed.

Lemma prompts_of_distinct_symbols_differ_witness :
  FUTFW_PROMPT_TEMPLATE "MGC1" <> FUTFW_PROMPT_TEMPLATE "MYM1".
Proof. apply prompts_of_distinct_symbols_differ. discriminate. Defined.

(** X15: whatever the symbol, the prompt names every field that the
    validation requires as a key of the JSON object it asks for. *)
Theorem prompt_asks_for_every_required_field (symbol field : string) :
  In field required_fields ->
  PyStr.contains (Decoder.q field ++ ":") (FUTFW_PROMPT_TEMPLATE symbol)
  = true.
Proof.
  intros Hin.
  destruct (PyStr.contains _ _) eqn:E; [reflexivity | exfalso].
  apply contains_false in E. apply E. clear E.
  unfold FUTFW_PROMPT_TEMPLATE.
  do 21 (apply occurs_unlines; right).
  cbn [required_fields In] in Hin.
  destruct Hin as [<- | Hin].
  { apply occurs_unlines. left.
    exists 2%nat, "  ", (" " ++ Decoder.q symbol ++ ",").
    split; reflexivity. }
  apply occurs_unlines; right.
  repeat (destruct Hin as [<- | Hin];
          [ apply occurs_unlines; left; eapply occurs_find; reflexivity
          | apply occurs_unlines; right ]).
  destruct Hin.
Qed.

Lemma prompt_asks_for_every_required_field_witness :
  PyStr.contains (Decoder.q "take_profit" ++ ":")
    (FUTFW_PROMPT_TEMPLATE "MGC1") = true.
Proof.
  apply prompt_asks_for_every_required_field. simpl. tauto.
Defined.
